(** * Quiz generator (main.py): a shallow embedding and its verified properties

    The service of [main.py] is one request pipeline: check the upload,
    extract the text of the PDF, build a prompt, call the hosted model,
    clean and decode its answer, validate the decoded records and build
    the response.  The pipeline is embedded as a program in a small
    trace-and-exception monad; the collaborators that live outside the
    repository (PyPDF2, the Azure OpenAI client, [json.loads], pydantic's
    field validators and the texts of interpreter errors) are the fields of
    a record [Collaborators], so that every theorem holds whatever they
    answer. *)

From Stdlib Require Import List Ascii String ZArith NArith Lia Bool DecimalString.
Import ListNotations.

Local Open Scope Z_scope.

Set Warnings "-register-all".

(* ================================================================== *)
(** * Part I: definitions *)
(* ================================================================== *)

(** ** Python strings and the built-ins [main.py] applies to them *)

Module Py.

(** A Python [str] is a sequence of Unicode code points. *)
Definition char := N.
Definition str := list char.

(** A literal of the source. *)
Definition lit (s : string) : str := map N_of_ascii (list_ascii_of_string s).

(** The double quote and the newline, which the literals of the source
    contain and a Rocq literal does not write directly. *)
Definition dquote : char := 34%N.
Definition newline : char := 10%N.
Definition backtick : char := 96%N.

(** ["..."] inside a Python literal. *)
Definition quoted (s : string) : str := dquote :: lit s ++ [dquote].

(** [len(x)] *)
Definition len {A : Type} (x : list A) : Z := Z.of_nat (List.length x).

(** [c.isspace()]: the code points Python's [str.strip()] removes. *)
Definition isspace (c : char) : bool :=
  (((9 <=? c) && (c <=? 13)) || ((28 <=? c) && (c <=? 32))
   || (c =? 133) || (c =? 160) || (c =? 5760)
   || ((8192 <=? c) && (c <=? 8202))
   || (c =? 8232) || (c =? 8233) || (c =? 8239) || (c =? 8287)
   || (c =? 12288))%N.

Fixpoint lstrip (s : str) : str :=
  match s with
  | [] => []
  | c :: t => if isspace c then lstrip t else s
  end.

Definition rstrip (s : str) : str := rev (lstrip (rev s)).

(** [s.strip()] *)
Definition strip (s : str) : str := rstrip (lstrip s).

(** [s.startswith(p)] *)
Fixpoint startswith (s p : str) {struct p} : bool :=
  match p, s with
  | [], _ => true
  | _ :: _, [] => false
  | a :: p', b :: s' => (a =? b)%N && startswith s' p'
  end.

(** [s.endswith(p)] *)
Definition endswith (s p : str) : bool := startswith (rev s) (rev p).

(** The bound of a slice: a negative index counts from the end, and both
    ends are clamped to the sequence. *)
Definition clamp (n i : Z) : Z :=
  if i <? 0 then Z.max 0 (n + i) else Z.min i n.

(** [s[i:]] *)
Definition slice_from {A : Type} (s : list A) (i : Z) : list A :=
  skipn (Z.to_nat (clamp (len s) i)) s.

(** [s[:j]] *)
Definition slice_to {A : Type} (s : list A) (j : Z) : list A :=
  firstn (Z.to_nat (clamp (len s) j)) s.

(** [str(n)] for an [int], which is also what [f"{n}"] renders. *)
Definition str_of_int (n : Z) : str :=
  lit (NilZero.string_of_int (Z.to_int n)).

(** [needle in hay] *)
Fixpoint contains (hay needle : str) : bool :=
  startswith hay needle
  || match hay with
     | [] => false
     | _ :: hay' => contains hay' needle
     end.

(** The lines of a multi-line literal, joined by newlines. *)
Fixpoint lines (ls : list str) : str :=
  match ls with
  | [] => []
  | [l] => l
  | l :: ls' => l ++ newline :: lines ls'
  end.

End Py.

Import Py.

(** ** JSON values, as [json.loads] returns them *)

(** A number keeps the shape Python gives it: an [int], or a [float] kept as
    the lexeme it was read from.  An object is a Python [dict]: its pairs in
    insertion order, each key at most once when a decoder built it. *)
Inductive json : Type :=
| JNull
| JBool (b : bool)
| JInt (n : Z)
| JFloat (lexeme : str)
| JStr (s : str)
| JList (items : list json)
| JObject (pairs : list (str * json)).

Definition str_eqb (a b : str) : bool :=
  (List.length a =? List.length b)%nat && startswith a b.

(** [d.get(key)] on the pairs of a dict. *)
Fixpoint dict_lookup (d : list (str * json)) (key : str) : option json :=
  match d with
  | [] => None
  | (k, v) :: d' => if str_eqb k key then Some v else dict_lookup d' key
  end.

(** [d[key] = v]: replaces the value of a key already there, else appends. *)
Fixpoint dict_set (d : list (str * json)) (key : str) (v : json)
  : list (str * json) :=
  match d with
  | [] => [(key, v)]
  | (k, w) :: d' =>
      if str_eqb k key then (k, v) :: d' else (k, w) :: dict_set d' key v
  end.

(** The member of an object, as a reader of a JSON body sees it. *)
Definition json_get (v : json) (key : string) : option json :=
  match v with
  | JObject d => dict_lookup d (lit key)
  | _ => None
  end.

(** ** Exceptions *)

(** The classes the [except] clauses of [main.py] tell apart, and the ones
    the modelled steps raise themselves. *)
Inductive exc_class : Type :=
| JSONDecodeError
| ValidationError
| TypeError
| AttributeError
| OtherError (name : str).

(** An exception that is not an [HTTPException]: its class and [str(e)]. *)
Record pyexc : Type := PyExc { exc_cls : exc_class; exc_text : str }.

(** [HTTPException(status_code=..., detail=...)] *)
Record HTTPException : Type := HTTPError { status_code : Z; detail : str }.

(** What the body of [generate_quiz]'s [try] can raise. *)
Inductive exn : Type :=
| Http (h : HTTPException)
| Py (e : pyexc).

(** The run-time faults of the interpreter and of pydantic that the
    pipeline can provoke.  Their texts belong to the Python and pydantic
    versions in use, so a collaborator supplies them. *)
Inductive fault : Type :=
| NoAttribute (receiver : json) (attr : str)
| NotIterable (v : json)
| NotAMapping (model : str) (v : json)
| InvalidModel (model : str) (v : json).

Definition is_json_decode_error (c : exc_class) : bool :=
  match c with JSONDecodeError => true | _ => false end.

(** ** Effects: a trace of the calls that leave the handler *)

(** One request to [client.chat.completions.create]. *)
Record chat_request : Type := ChatRequest {
  model : option str;
  messages : list (str * str);
  temperature : str;
  max_tokens : Z
}.

Inductive event : Type :=
| ReadUpload
| PdfOpened (pdf_bytes : list Byte.byte)
| ModelCalled (request : chat_request)
| Printed (line : str).

(** A computation that logs events and either raises an [E] or returns. *)
Definition M (E A : Type) : Type := (list event * (E + A))%type.

Definition ret {E A : Type} (a : A) : M E A := ([], inr a).

Definition raise {E A : Type} (e : E) : M E A := ([], inl e).

Definition emit {E : Type} (ev : event) : M E unit := ([ev], inr tt).

Definition bind {E A B : Type} (m : M E A) (k : A -> M E B) : M E B :=
  match m with
  | (t, inl e) => (t, inl e)
  | (t, inr a) => let (t', r) := k a in (t ++ t', r)
  end.

(** [try: body / except ...: handler]: the handler runs after the events of
    the body, and decides what is raised instead. *)
Definition try_except {E E' A : Type} (body : M E A) (handler : E -> M E' A)
  : M E' A :=
  match body with
  | (t, inl e) => let (t', r) := handler e in (t ++ t', r)
  | (t, inr a) => (t, inr a)
  end.

(** A call of a function that raises only [HTTPException]s, inside a
    [try] whose body can raise anything. *)
Definition call {A : Type} (m : M HTTPException A) : M exn A :=
  try_except m (fun h => raise (Http h)).

(** The outcome of a library call, entered into the computation. *)
Definition outcome {E A : Type} (r : E + A) : M E A := ([], r).

Declare Scope py_scope.
Delimit Scope py_scope with py.
Notation "x <- m ;; k" := (bind m (fun x => k))
  (at level 61, m at next level, right associativity) : py_scope.
Notation "m ;; k" := (bind m (fun _ => k))
  (at level 61, right associativity) : py_scope.
Notation "'when' c 'then_raise' e" := (if c then raise e else ret tt)
  (at level 60, c at level 9, e at level 9) : py_scope.

(** [for x in xs: ...] with a body that may raise: stops at the first
    exception. *)
Fixpoint for_each {E A B : Type} (f : A -> E + B) (xs : list A)
  : E + list B :=
  match xs with
  | [] => inr []
  | x :: xs' =>
      match f x with
      | inl e => inl e
      | inr y =>
          match for_each f xs' with
          | inl e => inl e
          | inr ys => inr (y :: ys)
          end
      end
  end.

Fixpoint all_some {A B : Type} (f : A -> option B) (xs : list A)
  : option (list B) :=
  match xs with
  | [] => Some []
  | x :: xs' =>
      match f x, all_some f xs' with
      | Some y, Some ys => Some (y :: ys)
      | _, _ => None
      end
  end.

(** ** The collaborators outside the repository *)

Record Collaborators : Type := {
  (** [PyPDF2.PdfReader(io.BytesIO(b)).pages], each page with what its
      [extract_text()] returns or raises. *)
  PdfReader_pages : list Byte.byte -> pyexc + list (pyexc + str);
  (** [os.getenv("AZURE_OPENAI_MODEL")] *)
  DEPLOYMENT_NAME : option str;
  (** [client.chat.completions.create(...)] followed by
      [.choices[0].message.content], which may be [None]. *)
  chat_completions_create : chat_request -> pyexc + option str;
  (** [json.loads] *)
  json_loads : str -> pyexc + json;
  (** pydantic's validator of a [str] field.  Whether it also accepts
      numbers depends on the pydantic version; it accepts every string in
      all of them. *)
  str_validator : json -> option str;
  str_validator_str : forall s, str_validator (JStr s) = Some s;
  (** [str(e)] of an interpreter or pydantic fault. *)
  fault_text : fault -> str
}.

Definition fault_class (f : fault) : exc_class :=
  match f with
  | NoAttribute _ _ => AttributeError
  | NotIterable _ => TypeError
  | NotAMapping _ _ => TypeError
  | InvalidModel _ _ => ValidationError
  end.

Definition fault_exc (env : Collaborators) (f : fault) : pyexc :=
  PyExc (fault_class f) (fault_text env f).

(** ** The pydantic models *)

Record MCQQuestion : Type := {
  mcq_question : str;
  options : list str;
  correct_answer : str;
  explanation : option str
}.

Record ShortAnswerQuestion : Type := {
  short_question : str;
  expected_answer : str
}.

Record FillInTheBlank : Type := {
  blank_question : str;
  answer : str;
  hint : option str
}.

Record QuizResponse : Type := {
  success : bool;
  message : str;
  mcq_questions : list MCQQuestion;
  short_answer_questions : list ShortAnswerQuestion;
  fill_in_the_blanks : list FillInTheBlank;
  total_questions : Z
}.

Section Validation.

Variable env : Collaborators.

(** A field [name: str] *)
Definition required_str (d : list (str * json)) (key : string) : option str :=
  match dict_lookup d (lit key) with
  | Some v => str_validator env v
  | None => None
  end.

(** A field [name: Optional[str] = None] *)
Definition optional_str (d : list (str * json)) (key : string)
  : option (option str) :=
  match dict_lookup d (lit key) with
  | None => Some None
  | Some JNull => Some None
  | Some v => option_map Some (str_validator env v)
  end.

(** A field [name: List[str]] *)
Definition required_str_list (d : list (str * json)) (key : string)
  : option (list str) :=
  match dict_lookup d (lit key) with
  | Some (JList items) => all_some (str_validator env) items
  | _ => None
  end.

Definition validate_MCQQuestion (d : list (str * json)) : option MCQQuestion :=
  match required_str d "question", required_str_list d "options",
        required_str d "correct_answer", optional_str d "explanation" with
  | Some q, Some o, Some c, Some e =>
      Some {| mcq_question := q; options := o; correct_answer := c;
              explanation := e |}
  | _, _, _, _ => None
  end.

Definition validate_ShortAnswerQuestion (d : list (str * json))
  : option ShortAnswerQuestion :=
  match required_str d "question", required_str d "expected_answer" with
  | Some q, Some a => Some {| short_question := q; expected_answer := a |}
  | _, _ => None
  end.

Definition validate_FillInTheBlank (d : list (str * json))
  : option FillInTheBlank :=
  match required_str d "question", required_str d "answer",
        optional_str d "hint" with
  | Some q, Some a, Some h =>
      Some {| blank_question := q; answer := a; hint := h |}
  | _, _, _ => None
  end.

(** A model called with the items of [q] as its keyword arguments: [q]
    must be a mapping, and its items must validate. *)
Definition construct {A : Type} (name : string)
  (validate : list (str * json) -> option A) (q : json) : pyexc + A :=
  match q with
  | JObject d =>
      match validate d with
      | Some m => inr m
      | None => inl (fault_exc env (InvalidModel (lit name) q))
      end
  | _ => inl (fault_exc env (NotAMapping (lit name) q))
  end.

(** [questions_data.get(key, [])] *)
Definition get_or_empty (questions_data : json) (key : string)
  : pyexc + json :=
  match questions_data with
  | JObject d =>
      match dict_lookup d (lit key) with
      | Some v => inr v
      | None => inr (JList [])
      end
  | _ => inl (fault_exc env (NoAttribute questions_data (lit "get")))
  end.

(** The items a [for] loop draws from a decoded value. *)
Definition iterate (v : json) : pyexc + list json :=
  match v with
  | JList items => inr items
  | JStr s => inr (map (fun c => JStr [c]) s)
  | JObject d => inr (map (fun kv => JStr (fst kv)) d)
  | _ => inl (fault_exc env (NotIterable v))
  end.

(** The list comprehension that builds one model from every item of
    [questions_data.get(key, [])]. *)
Definition comprehension {A : Type} (name : string)
  (validate : list (str * json) -> option A) (questions_data : json)
  (key : string) : pyexc + list A :=
  match get_or_empty questions_data key with
  | inl e => inl e
  | inr v =>
      match iterate v with
      | inl e => inl e
      | inr items => for_each (construct name validate) items
      end
  end.

End Validation.

(** ** The pipeline of [main.py] *)

(** [UploadFile]: its [filename] and the bytes [await file.read()] returns.
    The form parser builds an upload from a part that carries a file name,
    so the name the handler sees is a string. *)
Record UploadFile : Type := {
  filename : str;
  content : list Byte.byte
}.

(** The local [prompt] of [generate_questions_with_azure]: the f-string,
    line by line. *)
Definition prompt (text : str) (num_mcq num_short num_blanks : Z) : str :=
  lines [
    lit "Based on the following text, generate questions in THREE categories:";
    [];
    lit "TEXT:";
    slice_to text 8000;
    [];
    lit "Generate exactly:";
    lit "1. " ++ str_of_int num_mcq ++ lit " Multiple Choice Questions (MCQ)";
    lit "2. " ++ str_of_int num_short ++ lit " Short Answer Questions";
    lit "3. " ++ str_of_int num_blanks ++ lit " Fill in the Blank Questions";
    [];
    lit "Return your response as a VALID JSON object with this EXACT structure:";
    lit "{";
    lit "  " ++ quoted "mcq" ++ lit ": [";
    lit "    {";
    lit "      " ++ quoted "question" ++ lit ": " ++ quoted "Question text?"
      ++ lit ",";
    lit "      " ++ quoted "options" ++ lit ": [" ++ quoted "A) Option 1"
      ++ lit ", " ++ quoted "B) Option 2" ++ lit ", " ++ quoted "C) Option 3"
      ++ lit ", " ++ quoted "D) Option 4" ++ lit "],";
    lit "      " ++ quoted "correct_answer" ++ lit ": " ++ quoted "A" ++ lit ",";
    lit "      " ++ quoted "explanation" ++ lit ": "
      ++ quoted "Brief explanation";
    lit "    }";
    lit "  ],";
    lit "  " ++ quoted "short_answer" ++ lit ": [";
    lit "    {";
    lit "      " ++ quoted "question" ++ lit ": " ++ quoted "Question text?"
      ++ lit ",";
    lit "      " ++ quoted "expected_answer" ++ lit ": "
      ++ quoted "Expected answer in 2-3 sentences";
    lit "    }";
    lit "  ],";
    lit "  " ++ quoted "fill_in_the_blanks" ++ lit ": [";
    lit "    {";
    lit "      " ++ quoted "question" ++ lit ": "
      ++ quoted "The capital of France is _____." ++ lit ",";
    lit "      " ++ quoted "answer" ++ lit ": " ++ quoted "Paris" ++ lit ",";
    lit "      " ++ quoted "hint" ++ lit ": " ++ quoted "A European city";
    lit "    }";
    lit "  ]";
    lit "}";
    [];
    lit "IMPORTANT: Return ONLY valid JSON, no extra text or markdown."
  ].

Definition system_message : str :=
  lit "You are an expert educator who creates high-quality assessment questions. Always respond with valid JSON only.".

(** The [# Clean response] block: trim, drop an opening fence with or
    without its [json] tag, drop a closing fence, trim again. *)
Definition clean_response (response_text : str) : str :=
  let response_text := strip response_text in
  let response_text :=
    if startswith response_text (lit "```json")
    then slice_from response_text 7 else response_text in
  let response_text :=
    if startswith response_text (lit "```")
    then slice_from response_text 3 else response_text in
  let response_text :=
    if endswith response_text (lit "```")
    then slice_to response_text (-3) else response_text in
  strip response_text.

Section Pipeline.

Variable env : Collaborators.

(** The loop [for page in pdf_reader.pages: text += page.extract_text() + "\n"] *)
Fixpoint read_pages (pages : list (pyexc + str)) (text : str) : pyexc + str :=
  match pages with
  | [] => inr text
  | inl e :: _ => inl e
  | inr page_text :: pages' =>
      read_pages pages' (text ++ page_text ++ [newline])
  end.

Definition extract_text_from_pdf (pdf_bytes : list Byte.byte)
  : M HTTPException str :=
  try_except
    (emit (PdfOpened pdf_bytes) ;;
     pages <- outcome (PdfReader_pages env pdf_bytes) ;;
     text <- outcome (read_pages pages []) ;;
     ret (strip text))%py
    (fun e => raise (HTTPError 400 (lit "Error reading PDF: " ++ exc_text e))).

(** The cleaning and decoding of the completion: the [# Clean response]
    and [# Parse JSON] blocks. *)
Definition decode_completion (response_text : str) : pyexc + json :=
  json_loads env (clean_response response_text).

(** The arguments of [client.chat.completions.create]. *)
Definition completion_request (text : str) (num_mcq num_short num_blanks : Z)
  : chat_request :=
  {| model := DEPLOYMENT_NAME env;
     messages := [(lit "system", system_message);
                  (lit "user", prompt text num_mcq num_short num_blanks)];
     temperature := lit "0.7";
     max_tokens := 3000 |}.

(** The two [except] clauses of [generate_questions_with_azure]. *)
Definition completion_error (e : pyexc) : HTTPException :=
  if is_json_decode_error (exc_cls e)
  then HTTPError 500 (lit "Failed to parse AI response: " ++ exc_text e)
  else HTTPError 500 (lit "Azure OpenAI error: " ++ exc_text e).

Definition generate_questions_with_azure
  (text : str) (num_mcq num_short num_blanks : Z) : M HTTPException json :=
  let request := completion_request text num_mcq num_short num_blanks in
  try_except
    (emit (ModelCalled request) ;;
     message_content <- outcome (chat_completions_create env request) ;;
     response_text <-
       match message_content with
       | Some response_text => ret response_text
       | None => raise (fault_exc env (NoAttribute JNull (lit "strip")))
       end ;;
     outcome (decode_completion response_text))%py
    (fun e => raise (completion_error e)).

(** The [# Parse into models] block and the construction of the response. *)
Definition build_response (file_name : str) (questions_data : json)
  : pyexc + QuizResponse :=
  match comprehension env "MCQQuestion" (validate_MCQQuestion env)
          questions_data "mcq" with
  | inl e => inl e
  | inr mcq =>
      match comprehension env "ShortAnswerQuestion"
              (validate_ShortAnswerQuestion env)
              questions_data "short_answer" with
      | inl e => inl e
      | inr short =>
          match comprehension env "FillInTheBlank"
                  (validate_FillInTheBlank env)
                  questions_data "fill_in_the_blanks" with
          | inl e => inl e
          | inr blank =>
              let total := len mcq + len short + len blank in
              inr {| success := true;
                     message := lit "Successfully generated "
                                ++ str_of_int total
                                ++ lit " questions from " ++ file_name;
                     mcq_questions := mcq;
                     short_answer_questions := short;
                     fill_in_the_blanks := blank;
                     total_questions := total |}
          end
      end
  end.

Definition lift_py {A : Type} (r : pyexc + A) : M exn A :=
  match r with
  | inl e => raise (Py e)
  | inr a => ret a
  end.

Definition generate_quiz (file : UploadFile)
  (num_mcq num_short_answer num_fill_blanks : Z) : M HTTPException QuizResponse :=
  try_except
    (when (negb (endswith (filename file) (lit ".pdf")))
       then_raise (Http (HTTPError 400 (lit "Only PDF files are allowed"))) ;;
     pdf_bytes <- (emit ReadUpload ;; ret (content file)) ;;
     when (len pdf_bytes >? 10 * 1024 * 1024)
       then_raise (Http (HTTPError 400 (lit "File too large. Max 10MB"))) ;;
     text <- call (extract_text_from_pdf pdf_bytes) ;;
     when (len text <? 100)
       then_raise (Http (HTTPError 400
         (lit "PDF text too short. Need at least 100 characters"))) ;;
     emit (Printed (lit "Extracted " ++ str_of_int (len text)
                    ++ lit " characters from PDF")) ;;
     emit (Printed (lit "Generating: " ++ str_of_int num_mcq ++ lit " MCQs, "
                    ++ str_of_int num_short_answer ++ lit " Short Answer, "
                    ++ str_of_int num_fill_blanks ++ lit " Fill Blanks")) ;;
     questions_data <-
       call (generate_questions_with_azure text num_mcq num_short_answer
               num_fill_blanks) ;;
     lift_py (build_response (filename file) questions_data))%py
    (fun e =>
       match e with
       | Http h => raise h
       | Py e => raise (HTTPError 500 (lit "Error: " ++ exc_text e))
       end).

End Pipeline.



(** ** A reference decoder

    An executable model of [json.loads] (the grammar of Python's [json]
    module: RFC 8259 plus [NaN], [Infinity] and [-Infinity], later
    duplicates of a key winning).  The theorems below hold for every
    decoder; this one is the decoder of the concrete runs.  It does not
    model the text of a decoding error. *)

Module RefJson.

Local Open Scope N_scope.

Definition is_ws (c : char) : bool :=
  (c =? 32) || (c =? 9) || (c =? 10) || (c =? 13).

Fixpoint skip_ws (s : str) : str :=
  match s with
  | [] => []
  | c :: t => if is_ws c then skip_ws t else s
  end.

Definition is_digit (c : char) : bool := (48 <=? c) && (c <=? 57).

Definition hex_value (c : char) : option N :=
  if is_digit c then Some (c - 48)
  else if (97 <=? c) && (c <=? 102) then Some (c - 87)
  else if (65 <=? c) && (c <=? 70) then Some (c - 55)
  else None.

Definition hex4 (s : str) : option (N * str) :=
  match s with
  | a :: b :: c :: d :: rest =>
      match hex_value a, hex_value b, hex_value c, hex_value d with
      | Some x, Some y, Some z, Some w =>
          Some (((x * 16 + y) * 16 + z) * 16 + w, rest)
      | _, _, _, _ => None
      end
  | _ => None
  end.

(** The character a one-letter escape stands for. *)
Definition simple_escape (e : char) : option char :=
  if e =? 34 then Some 34
  else if e =? 92 then Some 92
  else if e =? 47 then Some 47
  else if e =? 98 then Some 8
  else if e =? 102 then Some 12
  else if e =? 110 then Some 10
  else if e =? 114 then Some 13
  else if e =? 116 then Some 9
  else None.

Definition is_high_surrogate (u : N) : bool := (55296 <=? u) && (u <=? 56319).
Definition is_low_surrogate (u : N) : bool := (56320 <=? u) && (u <=? 57343).

(** The second half of a surrogate pair, when one follows. *)
Definition low_surrogate_after (r : str) : option (option (N * str)) :=
  match r with
  | b :: u :: r' =>
      if (b =? 92) && (u =? 117) then
        match hex4 r' with
        | None => None
        | Some (u2, r'') =>
            if is_low_surrogate u2 then Some (Some (u2, r'')) else Some None
        end
      else Some None
  | _ => Some None
  end.

(** The body of a string, from after its opening quote to after its
    closing one. *)
Fixpoint scanstring (fuel : nat) (s acc : str) : option (str * str) :=
  match fuel with
  | O => None
  | S fuel' =>
      match s with
      | [] => None
      | c :: t =>
          if c =? 34 then Some (rev acc, t)
          else if c =? 92 then
            match t with
            | [] => None
            | e :: t' =>
                if e =? 117 then
                  match hex4 t' with
                  | None => None
                  | Some (uni, r) =>
                      if is_high_surrogate uni then
                        match low_surrogate_after r with
                        | None => None
                        | Some (Some (uni2, r')) =>
                            scanstring fuel' r'
                              (65536 + (N.lor (N.shiftl (uni - 55296) 10)
                                          (uni2 - 56320)) :: acc)
                        | Some None => scanstring fuel' r (uni :: acc)
                        end
                      else scanstring fuel' r (uni :: acc)
                  end
                else
                  match simple_escape e with
                  | Some x => scanstring fuel' t' (x :: acc)
                  | None => None
                  end
            end
          else if c <? 32 then None
          else scanstring fuel' t (c :: acc)
      end
  end.

Fixpoint take_digits (s : str) : str * str :=
  match s with
  | [] => ([], [])
  | c :: t =>
      if is_digit c then let (ds, r) := take_digits t in (c :: ds, r)
      else ([], s)
  end.

Definition digits_value (ds : str) : N :=
  fold_left (fun v c => v * 10 + (c - 48)) ds 0.

(** The integer part: an optional minus sign, then a lone zero or a
    digit from one to nine and the digits after it. *)
Definition scan_integer (s : str) : option (bool * str * str) :=
  let (negative, s1) :=
    match s with
    | c :: t => if c =? 45 then (true, t) else (false, s)
    | [] => (false, s)
    end in
  match s1 with
  | d :: t =>
      if d =? 48 then Some (negative, [d], t)
      else if is_digit d then
        let (ds, r) := take_digits t in Some (negative, d :: ds, r)
      else None
  | [] => None
  end.

(** The optional fraction: a dot and at least one digit. *)
Definition scan_fraction (s : str) : str * str :=
  match s with
  | c :: t =>
      if c =? 46 then
        match take_digits t with
        | ([], _) => ([], s)
        | (ds, r) => (c :: ds, r)
        end
      else ([], s)
  | [] => ([], s)
  end.

(** The optional exponent: e or E, an optional sign, at least one digit. *)
Definition scan_exponent (s : str) : str * str :=
  match s with
  | c :: t =>
      if (c =? 101) || (c =? 69) then
        let (sign, t1) :=
          match t with
          | g :: t' => if (g =? 45) || (g =? 43) then ([g], t') else ([], t)
          | [] => ([], t)
          end in
        match take_digits t1 with
        | ([], _) => ([], s)
        | (ds, r) => (c :: sign ++ ds, r)
        end
      else ([], s)
  | [] => ([], s)
  end.

Definition scan_number (s : str) : option (json * str) :=
  match scan_integer s with
  | None => None
  | Some (negative, ds, r) =>
      let (frac, r1) := scan_fraction r in
      let (exp, r2) := scan_exponent r1 in
      match frac, exp with
      | [], [] =>
          let v := Z.of_N (digits_value ds) in
          Some (JInt (if negative then (- v)%Z else v), r2)
      | _, _ =>
          Some (JFloat ((if negative then [45] else []) ++ ds ++ frac ++ exp),
                r2)
      end
  end.

(** A keyword at the head of the text. *)
Definition keyword (s : str) (word : string) (v : json) : option (json * str) :=
  if startswith s (lit word)
  then Some (v, skipn (List.length (lit word)) s) else None.

Definition first_of {A : Type} (xs : list (option A)) : option A :=
  fold_right (fun x rest => match x with Some _ => x | None => rest end)
    None xs.

(** The items of an array, from after its opening bracket and the blanks
    that follow it. *)
Fixpoint scan_items (value : str -> option (json * str)) (fuel : nat)
  (s : str) (acc : list json) : option (json * str) :=
  match fuel with
  | O => None
  | S fuel' =>
      match value s with
      | None => None
      | Some (v, r) =>
          match skip_ws r with
          | c :: r1 =>
              if c =? 93 then Some (JList (rev (v :: acc)), r1)
              else if c =? 44
              then scan_items value fuel' (skip_ws r1) (v :: acc)
              else None
          | [] => None
          end
      end
  end.

(** The members of an object, from after the opening quote of a key. *)
Fixpoint scan_members (value : str -> option (json * str)) (fuel : nat)
  (s : str) (acc : list (str * json)) : option (json * str) :=
  match fuel with
  | O => None
  | S fuel' =>
      match scanstring (S (List.length s)) s [] with
      | None => None
      | Some (key, r) =>
          match skip_ws r with
          | c :: r1 =>
              if c =? 58 then
                match value (skip_ws r1) with
                | None => None
                | Some (v, r2) =>
                    let acc' := dict_set acc key v in
                    match skip_ws r2 with
                    | c2 :: r3 =>
                        if c2 =? 125 then Some (JObject acc', r3)
                        else if c2 =? 44 then
                          match skip_ws r3 with
                          | q :: r4 =>
                              if q =? 34
                              then scan_members value fuel' r4 acc'
                              else None
                          | [] => None
                          end
                        else None
                    | [] => None
                    end
                end
              else None
          | [] => None
          end
      end
  end.

Fixpoint scan_once (fuel : nat) (s : str) : option (json * str) :=
  match fuel with
  | O => None
  | S fuel' =>
      match s with
      | [] => None
      | c :: t =>
          if c =? 34 then
            match scanstring (S (List.length t)) t [] with
            | Some (x, r) => Some (JStr x, r)
            | None => None
            end
          else if c =? 123 then
            match skip_ws t with
            | q :: r =>
                if q =? 125 then Some (JObject [], r)
                else if q =? 34
                then scan_members (scan_once fuel') fuel' r []
                else None
            | [] => None
            end
          else if c =? 91 then
            match skip_ws t with
            | q :: r =>
                if q =? 93 then Some (JList [], r)
                else scan_items (scan_once fuel') fuel' (q :: r) []
            | [] => None
            end
          else
            first_of [keyword s "null" JNull;
                      keyword s "true" (JBool true);
                      keyword s "false" (JBool false);
                      scan_number s;
                      keyword s "NaN" (JFloat (lit "NaN"));
                      keyword s "Infinity" (JFloat (lit "Infinity"));
                      keyword s "-Infinity" (JFloat (lit "-Infinity"))]
      end
  end.

Definition decode_error : pyexc := PyExc JSONDecodeError (lit "invalid JSON").

(** [json.loads(s)]: one value, blanks allowed around it, nothing after.
    Every step of the scan consumes a character, so the length of the
    text bounds its depth. *)
Definition loads (s : str) : pyexc + json :=
  match scan_once (S (List.length s)) (skip_ws s) with
  | Some (v, r) =>
      match skip_ws r with
      | [] => inr v
      | _ :: _ => inl decode_error
      end
  | None => inl decode_error
  end.

End RefJson.

(** ** Stand-ins for the other collaborators, for concrete runs *)

Module Stub.

(** A reader that takes the bytes to be one page of text, one code point
    a byte. *)
Definition pages_of_bytes (b : list Byte.byte) : pyexc + list (pyexc + str) :=
  inr [inr (map Byte.to_N b)].

(** pydantic's strict reading of a [str] field. *)
Definition strict_str (v : json) : option str :=
  match v with
  | JStr s => Some s
  | _ => None
  end.

Definition type_name (v : json) : string :=
  match v with
  | JNull => "NoneType"
  | JBool _ => "bool"
  | JInt _ => "int"
  | JFloat _ => "float"
  | JStr _ => "str"
  | JList _ => "list"
  | JObject _ => "dict"
  end.

Definition text_of_fault (f : fault) : str :=
  match f with
  | NoAttribute v attr =>
      lit "'" ++ lit (type_name v) ++ lit "' object has no attribute '"
      ++ attr ++ lit "'"
  | NotIterable v =>
      lit "'" ++ lit (type_name v) ++ lit "' object is not iterable"
  | NotAMapping name v =>
      name ++ lit "() argument after ** must be a mapping, not "
      ++ lit (type_name v)
  | InvalidModel name _ => lit "validation error for " ++ name
  end.

(** A service whose model answers every prompt with [completion]. *)
Definition env (completion : option str) : Collaborators :=
  {| PdfReader_pages := pages_of_bytes;
     DEPLOYMENT_NAME := Some (lit "gpt-4o");
     chat_completions_create := fun _ => inr completion;
     json_loads := RefJson.loads;
     str_validator := strict_str;
     str_validator_str := fun s => eq_refl;
     fault_text := text_of_fault |}.

End Stub.

(** ** The notions the properties are stated with *)

(** A text of blanks only. *)
Definition blank (s : str) : bool := forallb isspace s.

Definition fence : str := lit "```".

(** A text [lstrip] leaves alone: empty, or starting with a character
    that is not a blank. *)
Definition left_trimmed (s : str) : Prop := lstrip s = s.

(** A fenced code block around a completion: the opening fence, with or
    without the tag [json], the closing fence, and the blanks around the
    fences. *)
Record fencing : Type := {
  before : str;
  tagged : bool;
  after_open : str;
  before_close : str;
  after : str
}.

Definition well_formed_fencing (w : fencing) : bool :=
  blank (before w) && blank (after_open w)
  && blank (before_close w) && blank (after w).

Definition wrap (w : fencing) (s : str) : str :=
  before w ++ fence ++ (if tagged w then lit "json" else [])
  ++ after_open w ++ s ++ before_close w ++ fence ++ after w.

(** The records of the list a decoded document holds under [key], when that
    document has the expected structure: the list may be absent, and holds
    objects only. *)
Definition as_record (q : json) : option (list (str * json)) :=
  match q with
  | JObject r => Some r
  | _ => None
  end.

Definition records (d : list (str * json)) (key : string)
  : option (list (list (str * json))) :=
  match dict_lookup d (lit key) with
  | None => Some []
  | Some (JList items) => all_some as_record items
  | Some _ => None
  end.

Definition is_none {A : Type} (x : option A) : bool :=
  match x with
  | None => true
  | Some _ => false
  end.

(** The first record of a list that its model rejects. *)
Definition first_rejected {A : Type}
  (validate : list (str * json) -> option A)
  (rs : list (list (str * json))) : option (list (str * json)) :=
  find (fun r => is_none (validate r)) rs.

(** A record written the way the prompt asks for it. *)
Definition holds_str (r : list (str * json)) (key : string) : bool :=
  match dict_lookup r (lit key) with
  | Some (JStr _) => true
  | _ => false
  end.

Definition holds_optional_str (r : list (str * json)) (key : string) : bool :=
  match dict_lookup r (lit key) with
  | None | Some JNull | Some (JStr _) => true
  | Some _ => false
  end.

Definition is_str (v : json) : bool :=
  match v with
  | JStr _ => true
  | _ => false
  end.

Definition holds_str_list (r : list (str * json)) (key : string) : bool :=
  match dict_lookup r (lit key) with
  | Some (JList items) => forallb is_str items
  | _ => false
  end.

Definition well_formed_mcq (r : list (str * json)) : bool :=
  holds_str r "question" && holds_str_list r "options"
  && holds_str r "correct_answer" && holds_optional_str r "explanation".

Definition well_formed_short_answer (r : list (str * json)) : bool :=
  holds_str r "question" && holds_str r "expected_answer".

Definition well_formed_fill_in_the_blank (r : list (str * json)) : bool :=
  holds_str r "question" && holds_str r "answer"
  && holds_optional_str r "hint".

(** A well-formed answer of the model, decoded: an object whose three
    lists, where present, hold well-formed records. *)
Definition well_formed_list (wf : list (str * json) -> bool)
  (d : list (str * json)) (key : string) : bool :=
  match records d key with
  | Some rs => forallb wf rs
  | None => false
  end.

Definition well_formed_document (questions_data : json) : bool :=
  match questions_data with
  | JObject d =>
      well_formed_list well_formed_mcq d "mcq"
      && well_formed_list well_formed_short_answer d "short_answer"
      && well_formed_list well_formed_fill_in_the_blank d "fill_in_the_blanks"
  | _ => false
  end.

(** The number of records under [key]. *)
Definition record_count (d : list (str * json)) (key : string) : Z :=
  match records d key with
  | Some rs => len rs
  | None => 0
  end.

(** The decimal numerals of the counts a request may ask for. *)
Definition count_numerals : list str :=
  map lit ["1"; "2"; "3"; "4"; "5"; "6"; "7"; "8"; "9"; "10"]%string.

(** The field names of the schema the prompt shows. *)
Definition schema_field_names : list string :=
  ["mcq"; "short_answer"; "fill_in_the_blanks"; "question"; "options";
   "correct_answer"; "explanation"; "expected_answer"; "answer";
   "hint"]%string.

(** The keys of the three lists of a decoded document. *)
Definition list_keys : list string :=
  ["mcq"; "short_answer"; "fill_in_the_blanks"]%string.

(** Letter case, for the extension of a file name. *)
Definition ascii_lower (c : char) : char :=
  if ((65 <=? c) && (c <=? 90))%N then (c + 32)%N else c.

(** An upper-case or mixed-case spelling of [.pdf]. *)
Definition case_variant_of_pdf (suffix : str) : bool :=
  str_eqb (map ascii_lower suffix) (lit ".pdf")
  && negb (str_eqb suffix (lit ".pdf")).

(** [l] repeated [2 ^ k] times: a way to write a large payload. *)
Fixpoint doubled {A : Type} (k : nat) (l : list A) : list A :=
  match k with
  | O => l
  | S k' => doubled k' (l ++ l)
  end.

(** ** Concrete requests and answers, for the runs below *)

Module Samples.

Fixpoint join (sep : str) (xs : list str) : str :=
  match xs with
  | [] => []
  | [x] => x
  | x :: xs' => x ++ sep ++ join sep xs'
  end.

(** JSON text, written member by member. *)
Definition member (key : string) (value : str) : str :=
  quoted key ++ lit ": " ++ value.

Definition object (members : list str) : str :=
  lit "{" ++ join (lit ", ") members ++ lit "}".

Definition array (items : list str) : str :=
  lit "[" ++ join (lit ", ") items ++ lit "]".

Definition mcq_text (question answer : string) : str :=
  object [member "question" (quoted question);
          member "options" (array [quoted "A) yes"; quoted "B) no"]);
          member "correct_answer" (quoted answer);
          member "explanation" (lit "null")].

Definition short_text (question : string) : str :=
  object [member "question" (quoted question);
          member "expected_answer" (quoted "It divides.")].

Definition blank_text (question answer : string) : str :=
  object [member "question" (quoted question);
          member "answer" (quoted answer)].

(** An MCQ record with no [correct_answer]. *)
Definition mcq_without_answer : str :=
  object [member "question" (quoted "Is a cell alive?");
          member "options" (array [quoted "A) yes"; quoted "B) no"])].

(** Three MCQs, two short-answer questions, two blanks. *)
Definition quiz_text : str :=
  object [
    member "mcq" (array [mcq_text "Is a cell alive?" "A";
                         mcq_text "Do plants eat?" "B";
                         mcq_text "Is mitosis division?" "A"]);
    member "short_answer" (array [short_text "What does a cell do?";
                                  short_text "What is mitosis?"]);
    member "fill_in_the_blanks"
      (array [blank_text "Plants make _____." "sugar";
              blank_text "Cells divide by _____." "mitosis"])].


Definition mcq_only_text : str :=
  object [member "mcq" (array [mcq_text "Is a cell alive?" "A"])].

(** What the reference decoder reads in a text, and its members. *)
Definition decoded (s : str) : json :=
  match RefJson.loads s with
  | inr v => v
  | inl _ => JNull
  end.

Definition members (v : json) : list (str * json) :=
  match v with
  | JObject d => d
  | _ => []
  end.

(** The usual fenced block: the tag [json], a newline inside each fence. *)
Definition json_block : fencing :=
  {| before := []; tagged := true; after_open := [newline];
     before_close := [newline]; after := [] |}.

(** A fenced block with neither tag nor blanks. *)
Definition bare_block : fencing :=
  {| before := []; tagged := false; after_open := [];
     before_close := []; after := [] |}.

Definition page : string :=
  "A cell is the basic unit of life. Cells divide by mitosis. Plants make sugar from light by photosynthesis.".

Definition lecture : UploadFile :=
  {| filename := lit "lecture.pdf"; content := list_byte_of_string page |}.

Definition note : UploadFile :=
  {| filename := lit "note.pdf";
     content := list_byte_of_string "Cells divide." |}.

Definition spreadsheet : UploadFile :=
  {| filename := lit "grades.xlsx"; content := list_byte_of_string page |}.

(** Ten mebibytes, and one byte more. *)
Definition ten_bytes : list Byte.byte := list_byte_of_string "0123456789".

Definition at_cap : UploadFile :=
  {| filename := lit "book.pdf"; content := doubled 20 ten_bytes |}.

Definition over_cap : UploadFile :=
  {| filename := lit "book.pdf";
     content := Byte.x00 :: doubled 20 ten_bytes |}.



End Samples.

(** ** The health endpoint *)

(** [bool(v)] for what [os.getenv] returns: a variable that is unset or
    empty counts as false. *)
Definition truthy (v : option str) : bool :=
  match v with
  | Some (_ :: _) => true
  | _ => false
  end.

(** A value of [os.getenv] in a JSON body. *)
Definition json_of_getenv (v : option str) : json :=
  match v with
  | Some s => JStr s
  | None => JNull
  end.

(** [health_check], for the value of [AZURE_OPENAI_API_KEY] at the time of
    the call. *)
Definition health_check (env : Collaborators)
  (AZURE_OPENAI_API_KEY : option str) : json :=
  JObject [(lit "status", JStr (lit "healthy"));
           (lit "azure_configured", JBool (truthy AZURE_OPENAI_API_KEY));
           (lit "deployment", json_of_getenv (DEPLOYMENT_NAME env))].

(** ** More notions for the properties *)

(** The text the extraction loop builds from the pages: a newline after
    each page. *)
Definition page_lines (texts : list str) : str :=
  List.concat (map (fun t => t ++ [newline]) texts).

(** [x] is a contiguous piece of [s]. *)
Definition piece (x s : str) : Prop := exists pre post, s = pre ++ x ++ post.

(** A decoded value on which a [for] loop raises. *)
Definition is_scalar (v : json) : bool :=
  match v with
  | JNull | JBool _ | JInt _ | JFloat _ => true
  | JStr _ | JList _ | JObject _ => false
  end.

Definition is_object (v : json) : bool :=
  match v with
  | JObject _ => true
  | _ => false
  end.

(** The names of the fields of the three models. *)
Definition model_field_names : list string :=
  ["question"; "options"; "correct_answer"; "explanation";
   "expected_answer"; "answer"; "hint"]%string.

(** [key] is none of the given names. *)
Definition none_of (key : str) (names : list string) : bool :=
  forallb (fun name => negb (str_eqb key (lit name))) names.

(** The events of a request that gets as far as the model, in order. *)
Definition full_trace (env : Collaborators) (file : UploadFile)
  (text : str) (a b c : Z) : list event :=
  [ReadUpload;
   PdfOpened (content file);
   Printed (lit "Extracted " ++ str_of_int (len text)
            ++ lit " characters from PDF");
   Printed (lit "Generating: " ++ str_of_int a ++ lit " MCQs, "
            ++ str_of_int b ++ lit " Short Answer, "
            ++ str_of_int c ++ lit " Fill Blanks");
   ModelCalled (completion_request env text a b c)].

(** ** More stand-ins for concrete runs *)

Module Fake.

(** A service with a given reader and a model that gives one answer, or
    fails, whatever it is asked. *)
Definition service
  (reader : list Byte.byte -> pyexc + list (pyexc + str))
  (reply : pyexc + option str) : Collaborators :=
  {| PdfReader_pages := reader;
     DEPLOYMENT_NAME := Some (lit "gpt-4o");
     chat_completions_create := fun _ => reply;
     json_loads := RefJson.loads;
     str_validator := Stub.strict_str;
     str_validator_str := fun s => eq_refl;
     fault_text := Stub.text_of_fault |}.

Definition not_a_pdf : pyexc :=
  PyExc (OtherError (lit "PdfReadError")) (lit "EOF marker not found").

Definition out_of_quota : pyexc :=
  PyExc (OtherError (lit "RateLimitError")) (lit "quota exceeded").

(** A reader that cannot parse what it is given. *)
Definition broken_reader (b : list Byte.byte)
  : pyexc + list (pyexc + str) := inl not_a_pdf.

(** A reader that finds two pages, whatever the bytes. *)
Definition two_pages (b : list Byte.byte) : pyexc + list (pyexc + str) :=
  inr [inr (lit "  Cells divide."); inr (lit "Plants grow. ")].

(** A reader whose second page cannot be read. *)
Definition torn_page (b : list Byte.byte) : pyexc + list (pyexc + str) :=
  inr [inr (lit "Cells divide."); inl not_a_pdf; inr (lit "Plants grow.")].

(** A reader that finds blank pages only. *)
Definition blank_pages (b : list Byte.byte) : pyexc + list (pyexc + str) :=
  inr [inr (lit "   "); inr []].

(** Answers of the model that decode, but not to what the handler expects:
    a list, an object whose [mcq] is [null], and an [mcq] list with a string
    among its records. *)
Definition list_answer : str := lit "[]".

Definition null_list_answer : str :=
  Samples.object [Samples.member "mcq" (lit "null")].

Definition stray_item_answer : str :=
  Samples.object
    [Samples.member "mcq"
       (Samples.array [Samples.mcq_text "Is a cell alive?" "A";
                       quoted "oops"])].

(** An MCQ record with a member the model does not declare. *)
Definition mcq_with_difficulty : list (str * json) :=
  dict_set (Samples.members
              (Samples.decoded (Samples.mcq_text "Is a cell alive?" "A")))
    (lit "difficulty") (JStr (lit "easy")).

(** Twenty mebibytes. *)
Definition twice_the_cap : UploadFile :=
  {| filename := lit "atlas.pdf"; content := doubled 21 Samples.ten_bytes |}.

End Fake.

(* ================================================================== *)
(** * Part II: properties *)
(* ================================================================== *)

(** ** Facts about the string built-ins *)

Section StringFacts.

Implicit Types s p r a b x y : str.

Lemma startswith_nil s : startswith s [] = true.
Proof. destruct s; reflexivity. Qed.

Lemma startswith_app p r : startswith (p ++ r) p = true.
Proof.
  induction p as [|c p IH]; simpl.
  - reflexivity.
  - now rewrite N.eqb_refl.
Qed.

Lemma startswith_split s p :
  startswith s p = true -> exists r, s = p ++ r.
Proof.
  revert s; induction p as [|c p IH]; intros s H.
  - now exists s.
  - destruct s as [|d s]; simpl in H; [discriminate|].
    apply andb_true_iff in H as [Hc Hs].
    apply N.eqb_eq in Hc; subst d.
    destruct (IH _ Hs) as [r ->].
    now exists r.
Qed.

(** A text that does not start with [p] does not start with a longer
    [p ++ q] either. *)
Lemma startswith_longer s p q :
  startswith s p = false -> startswith s (p ++ q) = false.
Proof.
  revert s; induction p as [|c p IH]; intros s H.
  - now rewrite startswith_nil in H.
  - destruct s as [|d s]; simpl in *; [reflexivity|].
    destruct (c =? d)%N; simpl in *; [now apply IH | reflexivity].
Qed.

(** When [s ++ y] starts with [p], either [s] already does, or [s] is a
    proper prefix of [p] and [y] goes on with the next character of [p]. *)
Lemma startswith_app_cases s y p :
  startswith (s ++ y) p = true ->
  startswith s p = true
  \/ exists c p2 y', p = s ++ c :: p2 /\ y = c :: y'.
Proof.
  revert s; induction p as [|c p IH]; intros s H.
  - left; apply startswith_nil.
  - destruct s as [|d s].
    + right. simpl in H. destruct y as [|e y]; simpl in H; [discriminate|].
      apply andb_true_iff in H as [Hc _]. apply N.eqb_eq in Hc; subst e.
      now exists c, p, y.
    + simpl in H. apply andb_true_iff in H as [Hc Hs].
      destruct (IH _ Hs) as [Hl | (c' & p2 & y' & -> & ->)].
      * left; simpl. now rewrite Hc, Hl.
      * right. apply N.eqb_eq in Hc; subst d. now exists c', p2, y'.
Qed.

(** At equal lengths, starting with [p] is being [p]. *)
Lemma startswith_same_length a b p :
  List.length a = List.length p -> startswith (a ++ b) p = true -> a = p.
Proof.
  revert a; induction p as [|c p IH]; intros [|d a] Hlen H;
    simpl in *; try discriminate; [reflexivity|].
  apply andb_true_iff in H as [Hc Hs].
  apply N.eqb_eq in Hc; subst d.
  f_equal. apply IH; [congruence | assumption].
Qed.

Lemma endswith_app s p : endswith (s ++ p) p = true.
Proof. unfold endswith. rewrite rev_app_distr. apply startswith_app. Qed.

Lemma len_app {A : Type} (x y : list A) : len (x ++ y) = len x + len y.
Proof. unfold len. rewrite length_app. lia. Qed.

Lemma len_nonneg {A : Type} (x : list A) : 0 <= len x.
Proof. unfold len; lia. Qed.

(** [(p ++ r)[len(p):]] is [r]. *)
Lemma slice_from_app {A : Type} (p r : list A) (i : Z) :
  i = len p -> slice_from (p ++ r) i = r.
Proof.
  intros ->. unfold slice_from, clamp.
  pose proof (len_nonneg p) as Hp. pose proof (len_nonneg r) as Hr.
  destruct (Z.ltb_spec (len p) 0) as [H|_]; [lia|].
  rewrite len_app, Z.min_l by lia.
  unfold len. rewrite Nat2Z.id.
  rewrite skipn_app, skipn_all, Nat.sub_diag. reflexivity.
Qed.

(** [(s ++ p)[:-len(p)]] is [s], for a [p] that is not empty. *)
Lemma slice_to_app {A : Type} (s p : list A) (j : Z) :
  j = - len p -> p <> [] -> slice_to (s ++ p) j = s.
Proof.
  intros -> Hne. unfold slice_to, clamp.
  assert (0 < len p) as Hp by (destruct p; [easy | unfold len; simpl; lia]).
  pose proof (len_nonneg s) as Hs.
  destruct (Z.ltb_spec (- len p) 0) as [_|H]; [|lia].
  rewrite len_app.
  replace (Z.max 0 (len s + len p + - len p)) with (len s) by lia.
  unfold len. rewrite Nat2Z.id.
  rewrite firstn_app, firstn_all, Nat.sub_diag. simpl. apply app_nil_r.
Qed.

(** *** Trimming *)

Lemma blank_app a b : blank (a ++ b) = blank a && blank b.
Proof. apply forallb_app. Qed.

Lemma blank_rev a : blank (rev a) = blank a.
Proof.
  induction a as [|c a IH]; [reflexivity|].
  simpl. rewrite blank_app, IH. simpl. rewrite andb_true_r. apply andb_comm.
Qed.

Lemma lstrip_blank a s : blank a = true -> lstrip (a ++ s) = lstrip s.
Proof.
  induction a as [|c a IH]; intros H; [reflexivity|].
  simpl in *. apply andb_true_iff in H as [Hc Ha].
  rewrite Hc. now apply IH.
Qed.

Lemma lstrip_all_blank a : blank a = true -> lstrip a = [].
Proof.
  intros H. rewrite <- (app_nil_r a). now rewrite lstrip_blank.
Qed.

Lemma lstrip_idempotent s : lstrip (lstrip s) = lstrip s.
Proof.
  induction s as [|c s IH]; [reflexivity|].
  simpl. destruct (isspace c) eqn:Hc; [assumption|].
  simpl. now rewrite Hc.
Qed.

(** Blanks at the end are untouched by [lstrip], unless there is nothing
    else. *)
Lemma lstrip_app_blank s b :
  blank b = true ->
  lstrip (s ++ b) = lstrip s ++ b \/ (lstrip s = [] /\ lstrip (s ++ b) = []).
Proof.
  intros Hb. induction s as [|c s IH]; simpl.
  - right. split; [reflexivity | now apply lstrip_all_blank].
  - destruct (isspace c); [assumption | now left].
Qed.

(** A character that is not a blank stops [lstrip] wherever it is. *)
Lemma lstrip_app_nonspace s c r :
  isspace c = false -> lstrip (s ++ c :: r) = lstrip s ++ c :: r.
Proof.
  intros Hc. induction s as [|d s IH]; simpl.
  - now rewrite Hc.
  - destruct (isspace d); [assumption | reflexivity].
Qed.

Lemma rstrip_nil : rstrip [] = [].
Proof. reflexivity. Qed.

Lemma rstrip_blank s b : blank b = true -> rstrip (s ++ b) = rstrip s.
Proof.
  intros H. unfold rstrip. rewrite rev_app_distr.
  rewrite lstrip_blank; [reflexivity | now rewrite blank_rev].
Qed.

Lemma rstrip_cons_nonspace c s :
  isspace c = false -> rstrip (c :: s) = c :: rstrip s.
Proof.
  intros Hc. unfold rstrip. simpl.
  rewrite lstrip_app_nonspace by assumption.
  rewrite rev_app_distr. reflexivity.
Qed.

Lemma rstrip_idempotent s : rstrip (rstrip s) = rstrip s.
Proof.
  unfold rstrip. now rewrite rev_involutive, lstrip_idempotent.
Qed.

(** [rstrip] keeps a text trimmed on the left. *)

Lemma left_trimmed_rstrip s : left_trimmed s -> left_trimmed (rstrip s).
Proof.
  unfold left_trimmed. destruct s as [|c s]; [reflexivity|].
  simpl. destruct (isspace c) eqn:Hc.
  - intros H. exfalso.
    assert (List.length (lstrip s) <= List.length s)%nat as Hlen.
    { clear. induction s as [|d s IH]; simpl; [lia|].
      destruct (isspace d); simpl; lia. }
    rewrite H in Hlen. simpl in Hlen. lia.
  - intros _. rewrite rstrip_cons_nonspace by assumption.
    simpl. now rewrite Hc.
Qed.

Lemma strip_idempotent s : strip (strip s) = strip s.
Proof.
  unfold strip.
  rewrite (left_trimmed_rstrip (lstrip s)) by apply lstrip_idempotent.
  apply rstrip_idempotent.
Qed.

(** Blanks around a text do not change what [strip] returns. *)
Lemma strip_blank_around a s b :
  blank a = true -> blank b = true -> strip (a ++ s ++ b) = strip s.
Proof.
  intros Ha Hb. unfold strip. rewrite lstrip_blank by assumption.
  destruct (lstrip_app_blank s b Hb) as [-> | [-> ->]].
  - now apply rstrip_blank.
  - reflexivity.
Qed.

(** A text between two characters that are not blanks is already
    trimmed. *)
Lemma strip_between c x d :
  isspace c = false -> isspace d = false ->
  strip (c :: x ++ [d]) = c :: x ++ [d].
Proof.
  intros Hc Hd. unfold strip. simpl. rewrite Hc.
  unfold rstrip. change (c :: x ++ [d]) with ((c :: x) ++ [d]).
  rewrite rev_app_distr.
  change (rev [d] ++ rev (c :: x)) with (d :: rev (c :: x)).
  cbn [lstrip]. rewrite Hd.
  change (rev (d :: rev (c :: x))) with (rev (rev (c :: x)) ++ [d]).
  now rewrite rev_involutive.
Qed.

End StringFacts.

(** ** The cleaning of a completion *)

Section Cleaning.

Implicit Types s m x a b : str.

Lemma fence_json : lit "```json" = fence ++ lit "json".
Proof. reflexivity. Qed.

(** A text that carries no fence is only trimmed. *)
Lemma clean_response_unfenced s :
  startswith (strip s) fence = false ->
  endswith (strip s) fence = false ->
  clean_response s = strip s.
Proof.
  intros Hs He. unfold clean_response.
  rewrite fence_json, (startswith_longer _ _ _ Hs).
  fold fence. rewrite Hs, He. apply strip_idempotent.
Qed.

(** What is left of a fenced text once the blanks around it are gone. *)
Lemma strip_fenced a x b :
  blank a = true -> blank b = true ->
  strip (a ++ (fence ++ x ++ fence) ++ b) = fence ++ x ++ fence.
Proof.
  intros Ha Hb. rewrite strip_blank_around by assumption.
  replace (fence ++ x ++ fence)
    with (backtick :: ([backtick; backtick] ++ x ++ [backtick; backtick])
            ++ [backtick]).
  - apply strip_between; reflexivity.
  - unfold fence. cbn. rewrite <- app_assoc. reflexivity.
Qed.

(** The closing fence is dropped, and then the blanks. *)
Lemma close_fence m :
  strip (if endswith (m ++ fence) fence then slice_to (m ++ fence) (-3)
         else m ++ fence) = strip m.
Proof.
  rewrite endswith_app, slice_to_app; [reflexivity | reflexivity | discriminate].
Qed.

(** Only a proper prefix of the fence is completed into a fence by the
    closing one. *)
Lemma fence_completed m :
  startswith (m ++ fence) fence = true ->
  startswith m fence = true
  \/ m = [] \/ m = [backtick] \/ m = [backtick; backtick].
Proof.
  intros H.
  destruct (startswith_app_cases _ _ _ H) as [Hm | (c & p2 & y & Hp & _)].
  - now left.
  - right. unfold fence in Hp. cbn in Hp.
    destruct m as [|c1 [|c2 [|c3 m]]]; cbn in Hp.
    + now left.
    + right; left. injection Hp as <- _. reflexivity.
    + right; right. injection Hp as <- <- _. reflexivity.
    + exfalso. injection Hp as _ _ _ Hp. destruct m; discriminate.
Qed.

Lemma starts_with_fence_strip a s b :
  blank a = true -> blank b = true ->
  startswith (a ++ s ++ b) fence = true -> startswith (strip s) fence = true.
Proof.
  intros Ha Hb H. rewrite <- (strip_blank_around a s b Ha Hb).
  destruct (startswith_split _ _ H) as [r ->].
  unfold strip.
  change (lstrip (fence ++ r)) with (backtick :: backtick :: backtick :: r).
  rewrite !rstrip_cons_nonspace by reflexivity. reflexivity.
Qed.

Lemma startswith_common_prefix p x q :
  startswith (p ++ x) (p ++ q) = startswith x q.
Proof.
  induction p as [|c p IH]; simpl; [reflexivity|].
  now rewrite N.eqb_refl.
Qed.

Lemma wrap_shape w s :
  wrap w s
  = before w
    ++ (fence
        ++ ((if tagged w then lit "json" else [])
            ++ after_open w ++ s ++ before_close w)
        ++ fence)
    ++ after w.
Proof. unfold wrap. rewrite <- !app_assoc. reflexivity. Qed.

(** Neither a blank nor the closing fence can complete the tag [json]. *)
Lemma no_json_across x b :
  blank b = true ->
  startswith x (lit "json") = false ->
  startswith (x ++ b ++ fence) (lit "json") = false.
Proof.
  intros Hb Hx.
  destruct (startswith (x ++ b ++ fence) (lit "json")) eqn:E; [|reflexivity].
  exfalso.
  destruct (startswith_app_cases _ _ _ E) as [H | (c & p2 & y & Hp & Hy)].
  - congruence.
  - assert (In c (lit "json")) as Hc by (rewrite Hp; apply in_elt).
    assert (isspace c = false /\ c <> backtick) as [Hsp Hbt].
    { cbn in Hc. unfold backtick.
      destruct Hc as [<- | [<- | [<- | [<- | []]]]]; split;
        (reflexivity || discriminate). }
    destruct b as [|d b]; cbn in Hy.
    + injection Hy as Hy _. apply Hbt. now rewrite <- Hy.
    + injection Hy as Hy _. subst d. cbn in Hb.
      rewrite Hsp in Hb. discriminate.
Qed.

(** A fenced block around a text that carries no fence itself is cleaned
    down to the trimmed text. *)
Lemma clean_response_wrap w s :
  well_formed_fencing w = true ->
  startswith (strip s) fence = false ->
  (tagged w = false ->
   startswith (after_open w ++ s) (lit "json") = false) ->
  clean_response (wrap w s) = strip s.
Proof.
  unfold well_formed_fencing. intros Hw Hs Hj.
  apply andb_true_iff in Hw as [Hw Hb4].
  apply andb_true_iff in Hw as [Hw Hb3].
  apply andb_true_iff in Hw as [Hb1 Hb2].
  assert (strip (after_open w ++ s ++ before_close w) = strip s) as Hm
    by now apply strip_blank_around.
  unfold clean_response.
  rewrite wrap_shape, strip_fenced by assumption.
  destruct (tagged w).
  - clear Hj.
    remember (after_open w ++ s ++ before_close w) as m eqn:Em.
    change (fence ++ (lit "json" ++ m) ++ fence)
      with (lit "```json" ++ m ++ fence).
    rewrite startswith_app, slice_from_app by reflexivity.
    fold fence.
    destruct (startswith (m ++ fence) fence) eqn:E.
    + destruct (fence_completed _ E) as [H | [-> | [-> | ->]]].
      * exfalso. rewrite Em in H.
        apply starts_with_fence_strip in H; [congruence | assumption ..].
      * now rewrite <- Hm.
      * now rewrite <- Hm.
      * now rewrite <- Hm.
    + now rewrite close_fence.
  - specialize (Hj eq_refl).
    change (fence ++ ([] ++ after_open w ++ s ++ before_close w) ++ fence)
      with (fence ++ (after_open w ++ s ++ before_close w) ++ fence).
    rewrite fence_json, startswith_common_prefix.
    replace ((after_open w ++ s ++ before_close w) ++ fence)
      with ((after_open w ++ s) ++ before_close w ++ fence)
      by now rewrite <- !app_assoc.
    rewrite no_json_across by assumption.
    rewrite startswith_app, slice_from_app by reflexivity.
    replace ((after_open w ++ s) ++ before_close w ++ fence)
      with ((after_open w ++ s ++ before_close w) ++ fence)
      by now rewrite <- !app_assoc.
    now rewrite close_fence.
Qed.

End Cleaning.

(** ** The pipeline, step by step *)

Ltac run_monad :=
  cbv beta iota zeta
    delta [try_except bind call emit ret raise outcome lift_py];
  cbn [app fst snd].

Section PipelineFacts.

Variable env : Collaborators.

Lemma extract_text_from_pdf_run (b : list Byte.byte) :
  extract_text_from_pdf env b
  = ([PdfOpened b],
     match PdfReader_pages env b with
     | inl e => inl (HTTPError 400 (lit "Error reading PDF: " ++ exc_text e))
     | inr pages =>
         match read_pages pages [] with
         | inl e =>
             inl (HTTPError 400 (lit "Error reading PDF: " ++ exc_text e))
         | inr text => inr (strip text)
         end
     end).
Proof.
  unfold extract_text_from_pdf, try_except, bind, emit, outcome, ret, raise.
  destruct (PdfReader_pages env b) as [e|pages]; [reflexivity|].
  destruct (read_pages pages []); reflexivity.
Qed.

Lemma generate_questions_with_azure_run text a b c :
  generate_questions_with_azure env text a b c
  = ([ModelCalled (completion_request env text a b c)],
     match chat_completions_create env (completion_request env text a b c) with
     | inl e => inl (completion_error e)
     | inr None =>
         inl (completion_error (fault_exc env (NoAttribute JNull (lit "strip"))))
     | inr (Some response_text) =>
         match decode_completion env response_text with
         | inl e => inl (completion_error e)
         | inr questions_data => inr questions_data
         end
     end).
Proof.
  unfold generate_questions_with_azure, try_except, bind, emit, outcome, ret,
    raise.
  destruct (chat_completions_create env _) as [e|[response_text|]];
    [reflexivity | | reflexivity].
  destruct (decode_completion env response_text); reflexivity.
Qed.

Lemma generate_quiz_run file a b c :
  generate_quiz env file a b c
  = if negb (endswith (filename file) (lit ".pdf"))
    then ([], inl (HTTPError 400 (lit "Only PDF files are allowed")))
    else if len (content file) >? 10 * 1024 * 1024
    then ([ReadUpload], inl (HTTPError 400 (lit "File too large. Max 10MB")))
    else
      match snd (extract_text_from_pdf env (content file)) with
      | inl h => ([ReadUpload; PdfOpened (content file)], inl h)
      | inr text =>
          if len text <? 100
          then ([ReadUpload; PdfOpened (content file)],
                inl (HTTPError 400
                  (lit "PDF text too short. Need at least 100 characters")))
          else
            ([ReadUpload; PdfOpened (content file);
              Printed (lit "Extracted " ++ str_of_int (len text)
                       ++ lit " characters from PDF");
              Printed (lit "Generating: " ++ str_of_int a ++ lit " MCQs, "
                       ++ str_of_int b ++ lit " Short Answer, "
                       ++ str_of_int c ++ lit " Fill Blanks");
              ModelCalled (completion_request env text a b c)],
             match snd (generate_questions_with_azure env text a b c) with
             | inl h => inl h
             | inr questions_data =>
                 match build_response env (filename file) questions_data with
                 | inl e => inl (HTTPError 500 (lit "Error: " ++ exc_text e))
                 | inr response => inr response
                 end
             end)
      end.
Proof.
  unfold generate_quiz.
  destruct (negb (endswith (filename file) (lit ".pdf"))); [reflexivity|].
  run_monad.
  destruct (len (content file) >? 10 * 1024 * 1024); [reflexivity|].
  rewrite extract_text_from_pdf_run.
  destruct (PdfReader_pages env (content file)) as [e|pages]; [reflexivity|].
  destruct (read_pages pages []) as [e|text]; [reflexivity|].
  run_monad.
  destruct (len (strip text) <? 100); [reflexivity|].
  rewrite generate_questions_with_azure_run.
  destruct (chat_completions_create env _) as [e|[response_text|]];
    [reflexivity | | reflexivity].
  destruct (decode_completion env response_text) as [e|questions_data];
    [reflexivity|].
  run_monad.
  destruct (build_response env (filename file) questions_data); reflexivity.
Qed.

End PipelineFacts.

(** ** Validation of the decoded records *)

Section ValidationFacts.

Variable env : Collaborators.

Lemma str_eqb_eq (a b : str) : str_eqb a b = true <-> a = b.
Proof.
  unfold str_eqb. split.
  - intros H. apply andb_true_iff in H as [Hl Hs].
    apply Nat.eqb_eq in Hl.
    rewrite <- (app_nil_r a) in Hs.
    now apply startswith_same_length in Hs.
  - intros ->. rewrite Nat.eqb_refl. simpl.
    rewrite <- (app_nil_r b) at 1. apply startswith_app.
Qed.

Lemma str_eqb_refl (a : str) : str_eqb a a = true.
Proof. now apply str_eqb_eq. Qed.

Lemma dict_lookup_set d k v k' :
  dict_lookup (dict_set d k v) k'
  = if str_eqb k k' then Some v else dict_lookup d k'.
Proof.
  induction d as [|[k0 w] d IH]; simpl.
  - reflexivity.
  - destruct (str_eqb k0 k) eqn:E0; simpl.
    + apply str_eqb_eq in E0; subst k0.
      destruct (str_eqb k k'); reflexivity.
    + destruct (str_eqb k0 k') eqn:E1; [|assumption].
      apply str_eqb_eq in E1; subst k0.
      destruct (str_eqb k k') eqn:E2; [|reflexivity].
      apply str_eqb_eq in E2; subst k. rewrite str_eqb_refl in E0. discriminate.
Qed.

(** *** Loops *)

Lemma for_each_length {E A B : Type} (f : A -> E + B) xs ys :
  for_each f xs = inr ys -> List.length ys = List.length xs.
Proof.
  revert ys; induction xs as [|x xs IH]; intros ys H; simpl in H.
  - now injection H as <-.
  - destruct (f x); [discriminate|].
    destruct (for_each f xs); [discriminate|].
    injection H as <-. simpl. f_equal. now apply IH.
Qed.

Lemma all_some_as_record items rs :
  all_some as_record items = Some rs -> items = map JObject rs.
Proof.
  revert rs; induction items as [|q items IH]; intros rs H; simpl in H.
  - now injection H as <-.
  - destruct q; simpl in H; try discriminate.
    destruct (all_some as_record items); [|discriminate].
    injection H as <-. simpl. f_equal. now apply IH.
Qed.

Lemma all_some_str items :
  forallb is_str items = true ->
  exists ss, all_some (str_validator env) items = Some ss.
Proof.
  induction items as [|v items IH]; intros H; simpl in *.
  - now exists [].
  - apply andb_true_iff in H as [Hv Hi].
    destruct v; try discriminate.
    rewrite str_validator_str.
    destruct (IH Hi) as [ss ->]. now eexists.
Qed.

(** *** Records the models accept *)

Lemma required_str_holds r key :
  holds_str r key = true -> exists s, required_str env r key = Some s.
Proof.
  unfold holds_str, required_str.
  destruct (dict_lookup r (lit key)) as [[]|]; try discriminate.
  intros _. rewrite str_validator_str. now eexists.
Qed.

Lemma optional_str_holds r key :
  holds_optional_str r key = true ->
  exists s, optional_str env r key = Some s.
Proof.
  unfold holds_optional_str, optional_str.
  destruct (dict_lookup r (lit key)) as [[]|]; try discriminate; intros _.
  - now eexists.
  - rewrite str_validator_str. now eexists.
  - now eexists.
Qed.

Lemma required_str_list_holds r key :
  holds_str_list r key = true ->
  exists ss, required_str_list env r key = Some ss.
Proof.
  unfold holds_str_list, required_str_list.
  destruct (dict_lookup r (lit key)) as [[]|]; try discriminate.
  apply all_some_str.
Qed.

Lemma validate_MCQQuestion_well_formed r :
  well_formed_mcq r = true -> exists m, validate_MCQQuestion env r = Some m.
Proof.
  unfold well_formed_mcq, validate_MCQQuestion. intros H.
  apply andb_true_iff in H as [H H4].
  apply andb_true_iff in H as [H H3].
  apply andb_true_iff in H as [H1 H2].
  destruct (required_str_holds _ _ H1) as [? ->].
  destruct (required_str_list_holds _ _ H2) as [? ->].
  destruct (required_str_holds _ _ H3) as [? ->].
  destruct (optional_str_holds _ _ H4) as [? ->].
  now eexists.
Qed.

Lemma validate_ShortAnswerQuestion_well_formed r :
  well_formed_short_answer r = true ->
  exists m, validate_ShortAnswerQuestion env r = Some m.
Proof.
  unfold well_formed_short_answer, validate_ShortAnswerQuestion. intros H.
  apply andb_true_iff in H as [H1 H2].
  destruct (required_str_holds _ _ H1) as [? ->].
  destruct (required_str_holds _ _ H2) as [? ->].
  now eexists.
Qed.

Lemma validate_FillInTheBlank_well_formed r :
  well_formed_fill_in_the_blank r = true ->
  exists m, validate_FillInTheBlank env r = Some m.
Proof.
  unfold well_formed_fill_in_the_blank, validate_FillInTheBlank. intros H.
  apply andb_true_iff in H as [H H3].
  apply andb_true_iff in H as [H1 H2].
  destruct (required_str_holds _ _ H1) as [? ->].
  destruct (required_str_holds _ _ H2) as [? ->].
  destruct (optional_str_holds _ _ H3) as [? ->].
  now eexists.
Qed.

(** *** The comprehension over a list of records *)

Section Comprehension.

Context {A : Type} (name : string) (validate : list (str * json) -> option A).

(** The loop stops at the first record the model rejects, with pydantic's
    validation error for it; it returns one model a record otherwise. *)
Lemma for_each_construct rs :
  match first_rejected validate rs with
  | Some r =>
      for_each (construct env name validate) (map JObject rs)
      = inl (fault_exc env (InvalidModel (lit name) (JObject r)))
  | None =>
      exists ms, for_each (construct env name validate) (map JObject rs)
                 = inr ms
  end.
Proof.
  unfold first_rejected.
  induction rs as [|r rs IH]; simpl.
  - now exists [].
  - destruct (validate r) as [m|] eqn:Hv; simpl.
    + destruct (find _ rs) as [r'|].
      * now rewrite IH.
      * destruct IH as [ms ->]. now eexists.
    + reflexivity.
Qed.

Lemma comprehension_records d key rs :
  records d key = Some rs ->
  comprehension env name validate (JObject d) key
  = for_each (construct env name validate) (map JObject rs).
Proof.
  unfold records, comprehension, get_or_empty.
  destruct (dict_lookup d (lit key)) as [v|].
  - destruct v; try discriminate.
    intros H. apply all_some_as_record in H. now subst items.
  - now intros [= <-].
Qed.


Lemma first_rejected_some rs r :
  first_rejected validate rs = Some r -> In r rs /\ validate r = None.
Proof.
  unfold first_rejected. intros H. apply find_some in H as [Hin Hv].
  split; [assumption|]. now destruct (validate r).
Qed.

Lemma first_rejected_well_formed (wf : list (str * json) -> bool) rs :
  (forall r, wf r = true -> exists m, validate r = Some m) ->
  forallb wf rs = true -> first_rejected validate rs = None.
Proof.
  intros Hwf Hall. unfold first_rejected.
  destruct (find _ rs) as [r|] eqn:E; [|reflexivity].
  apply find_some in E as [Hin Hv].
  rewrite forallb_forall in Hall.
  destruct (Hwf r (Hall r Hin)) as [m Hm]. now rewrite Hm in Hv.
Qed.

End Comprehension.

End ValidationFacts.

(** ** Searching a text, slices, payloads and suffixes *)

Section SearchFacts.

Implicit Types s n x y l : str.

Lemma contains_here s n : startswith s n = true -> contains s n = true.
Proof. intros H. destruct s; simpl; now rewrite H. Qed.

Lemma contains_app_r x y n : contains y n = true -> contains (x ++ y) n = true.
Proof.
  intros H. induction x as [|c x IH]; [assumption|].
  simpl. rewrite IH. apply orb_true_r.
Qed.

Lemma contains_app_l x y n : contains x n = true -> contains (x ++ y) n = true.
Proof.
  revert n. induction x as [|c x IH]; intros n H; simpl in H.
  - rewrite orb_false_r in H. destruct n; [|discriminate].
    destruct y; reflexivity.
  - apply orb_true_iff in H as [H|H].
    + apply contains_here.
      destruct (startswith_split _ _ H) as [r Hr].
      change ((c :: x) ++ y) with ((c :: x) ++ y). rewrite Hr.
      rewrite <- app_assoc. apply startswith_app.
    + simpl. rewrite (IH _ H). apply orb_true_r.
Qed.

Lemma contains_middle x n y : contains (x ++ n ++ y) n = true.
Proof. apply contains_app_r, contains_here, startswith_app. Qed.

(** Every line of a text is in the text, and so is what the line holds. *)
Lemma lines_split ls1 l ls2 :
  exists pre post, lines (ls1 ++ l :: ls2) = pre ++ l ++ post.
Proof.
  induction ls1 as [|l1 ls1 IH].
  - exists []. destruct ls2 as [|l2 ls2]; simpl.
    + exists []. now rewrite app_nil_r.
    + now eexists.
  - destruct IH as (pre & post & IH).
    exists (l1 ++ newline :: pre), post.
    change ((l1 :: ls1) ++ l :: ls2) with (l1 :: (ls1 ++ l :: ls2)).
    destruct (ls1 ++ l :: ls2) as [|l' ls'] eqn:E.
    + destruct ls1; discriminate.
    + cbn [lines]. cbn [lines] in IH. rewrite IH.
      rewrite <- app_assoc. reflexivity.
Qed.

Lemma contains_line ls l n :
  In l ls -> contains l n = true -> contains (lines ls) n = true.
Proof.
  intros Hin Hn. apply in_split in Hin as (ls1 & ls2 & ->).
  destruct (lines_split ls1 l ls2) as (pre & post & ->).
  now apply contains_app_r, contains_app_l.
Qed.

Lemma contains_refl l : contains l l = true.
Proof.
  apply contains_here. rewrite <- (app_nil_r l) at 1. apply startswith_app.
Qed.

End SearchFacts.

Lemma slice_to_firstn {A : Type} (s : list A) (j : Z) :
  0 <= j -> slice_to s j = firstn (Z.to_nat j) s.
Proof.
  intros Hj. unfold slice_to, clamp.
  destruct (Z.ltb_spec j 0) as [H|_]; [lia|].
  destruct (Z.le_ge_cases j (len s)) as [H|H].
  - now rewrite Z.min_l.
  - rewrite Z.min_r by assumption. unfold len in *.
    rewrite Nat2Z.id, firstn_all. symmetry. apply firstn_all2. lia.
Qed.

Lemma len_doubled {A : Type} (k : nat) (l : list A) :
  len (doubled k l) = 2 ^ Z.of_nat k * len l.
Proof.
  revert l; induction k as [|k IH]; intros l.
  - cbn [doubled]. change (2 ^ Z.of_nat 0) with 1. lia.
  - cbn [doubled]. rewrite IH, len_app, Nat2Z.inj_succ, Z.pow_succ_r by lia.
    ring.
Qed.

(** A name that ends with four characters other than [.pdf] does not end
    with [.pdf]. *)
Lemma endswith_other_suffix stem suffix p :
  List.length suffix = List.length p -> suffix <> p ->
  endswith (stem ++ suffix) p = false.
Proof.
  intros Hlen Hne. unfold endswith. rewrite rev_app_distr.
  destruct (startswith (rev suffix ++ rev stem) (rev p)) eqn:E; [|reflexivity].
  exfalso. apply Hne.
  apply startswith_same_length in E; [|now rewrite !length_rev].
  rewrite <- (rev_involutive suffix), E. apply rev_involutive.
Qed.

(** ** The shaping of the decoded document *)

Section ShapingFacts.

Variable env : Collaborators.

Lemma comprehension_outcome {A : Type} (name : string)
  (validate : list (str * json) -> option A) d key rs :
  records d key = Some rs ->
  match first_rejected validate rs with
  | Some r =>
      comprehension env name validate (JObject d) key
      = inl (fault_exc env (InvalidModel (lit name) (JObject r)))
  | None =>
      exists ms, comprehension env name validate (JObject d) key = inr ms
                 /\ len ms = len rs
  end.
Proof.
  intros H. rewrite (comprehension_records env name validate d key rs H).
  pose proof (for_each_construct env name validate rs) as Hrs.
  destruct (first_rejected validate rs); [assumption|].
  destruct Hrs as [ms Hms]. exists ms. split; [assumption|].
  apply for_each_length in Hms. unfold len. now rewrite Hms, length_map.
Qed.

Lemma comprehension_well_formed {A : Type} (name : string)
  (validate : list (str * json) -> option A)
  (wf : list (str * json) -> bool) d key :
  (forall r, wf r = true -> exists m, validate r = Some m) ->
  well_formed_list wf d key = true ->
  exists ms, comprehension env name validate (JObject d) key = inr ms
             /\ len ms = record_count d key.
Proof.
  unfold well_formed_list, record_count. intros Hwf H.
  destruct (records d key) as [rs|] eqn:Hrs; [|discriminate].
  pose proof (comprehension_outcome name validate d key rs Hrs) as Hc.
  now rewrite (first_rejected_well_formed validate wf rs Hwf H) in Hc.
Qed.

(** A missing list is read as the empty one. *)
Lemma get_or_empty_set d key key' :
  dict_lookup d (lit key) = None ->
  get_or_empty env (JObject (dict_set d (lit key) (JList []))) key'
  = get_or_empty env (JObject d) key'.
Proof.
  intros H. unfold get_or_empty. rewrite dict_lookup_set.
  destruct (str_eqb (lit key) (lit key')) eqn:E; [|reflexivity].
  apply str_eqb_eq in E. rewrite <- E, H. reflexivity.
Qed.

Lemma comprehension_set {A : Type} (name : string)
  (validate : list (str * json) -> option A) d key key' :
  dict_lookup d (lit key) = None ->
  comprehension env name validate (JObject (dict_set d (lit key) (JList [])))
    key'
  = comprehension env name validate (JObject d) key'.
Proof.
  intros H. unfold comprehension. now rewrite get_or_empty_set.
Qed.

(** A record without one of its required fields is rejected. *)
Lemma required_str_missing r key :
  dict_lookup r (lit key) = None -> required_str env r key = None.
Proof. unfold required_str. now intros ->. Qed.

Lemma validate_MCQQuestion_missing_answer r :
  dict_lookup r (lit "correct_answer") = None ->
  validate_MCQQuestion env r = None.
Proof.
  intros H. unfold validate_MCQQuestion.
  rewrite (required_str_missing r "correct_answer" H).
  destruct (required_str env r "question"); [|reflexivity].
  destruct (required_str_list env r "options"); reflexivity.
Qed.

(** So is a record whose [options] are not a list. *)
Lemma validate_MCQQuestion_options_not_a_list r v :
  dict_lookup r (lit "options") = Some v ->
  (forall items, v <> JList items) ->
  validate_MCQQuestion env r = None.
Proof.
  intros H Hv. unfold validate_MCQQuestion, required_str_list. rewrite H.
  destruct (required_str env r "question"); [|reflexivity].
  destruct v; try reflexivity. now destruct (Hv items).
Qed.

End ShapingFacts.

(** ** The prompt *)

Lemma count_numeral (n : Z) :
  1 <= n <= 10 ->
  nth_error count_numerals (Z.to_nat (n - 1)) = Some (str_of_int n).
Proof.
  intros H.
  assert (n = 1 \/ n = 2 \/ n = 3 \/ n = 4 \/ n = 5 \/ n = 6 \/ n = 7
          \/ n = 8 \/ n = 9 \/ n = 10) as Hn by lia.
  repeat (destruct Hn as [-> | Hn]; [reflexivity|]). now subst n.
Qed.

(** The prompt opens with its heading and the slice of the text. *)
Lemma prompt_opening (text : str) (a b c : Z) :
  exists rest,
    prompt text a b c
    = lit "Based on the following text, generate questions in THREE categories:"
      ++ [newline; newline] ++ lit "TEXT:" ++ [newline]
      ++ firstn (Z.to_nat 8000) text ++ newline :: rest.
Proof.
  rewrite <- slice_to_firstn by lia. eexists. reflexivity.
Qed.

(** The line of a text that holds what is looked for. *)
Ltac pick_line := (left; reflexivity) + (right; pick_line).

Ltac search_lines :=
  eapply contains_line; [cbn [In]; pick_line | idtac];
  vm_compute; reflexivity.

Ltac this_line :=
  lazymatch goal with
  | |- contains (lines _) ?n = true =>
      apply (contains_line _ n n);
      [cbn [In]; pick_line | apply contains_refl]
  end.

(** ** More facts, for the properties of Part IV *)

(** ** The extraction loop *)

Lemma read_pages_all (texts : list str) (acc : str) :
  read_pages (map inr texts) acc = inr (acc ++ page_lines texts).
Proof.
  revert acc; induction texts as [|t texts IH]; intros acc; simpl.
  - now rewrite app_nil_r.
  - rewrite IH. unfold page_lines. simpl. now rewrite <- !app_assoc.
Qed.

Lemma read_pages_stops (texts : list str) (e : pyexc)
  (rest : list (pyexc + str)) (acc : str) :
  read_pages (map inr texts ++ inl e :: rest) acc = inl e.
Proof.
  revert acc; induction texts as [|t texts IH]; intros acc; simpl.
  - reflexivity.
  - apply IH.
Qed.

Lemma strip_all_blank (s : str) : blank s = true -> strip s = [].
Proof. intros H. unfold strip. now rewrite lstrip_all_blank. Qed.

Lemma blank_page_lines (texts : list str) :
  forallb blank texts = true -> blank (page_lines texts) = true.
Proof.
  induction texts as [|t texts IH]; intros H; [reflexivity|].
  simpl in H. apply andb_true_iff in H as [Ht Hts].
  unfold page_lines. simpl. rewrite <- app_assoc, !blank_app.
  rewrite Ht. simpl. now apply IH.
Qed.

(** ** What the cleaning keeps *)

Section Pieces.

Implicit Types s x y : str.

Lemma piece_refl s : piece s s.
Proof. exists [], []. now rewrite app_nil_r. Qed.

Lemma piece_trans x y s : piece x y -> piece y s -> piece x s.
Proof.
  intros (p1 & q1 & ->) (p2 & q2 & ->).
  exists (p2 ++ p1), (q1 ++ q2). now rewrite <- !app_assoc.
Qed.

Lemma piece_len x s : piece x s -> len x <= len s.
Proof.
  intros (p & q & ->). rewrite !len_app.
  pose proof (len_nonneg p). pose proof (len_nonneg q). lia.
Qed.

Lemma lstrip_piece s : piece (lstrip s) s.
Proof.
  induction s as [|c s IH]; simpl.
  - apply piece_refl.
  - destruct (isspace c); [|apply piece_refl].
    destruct IH as (p & q & H). exists (c :: p), q. simpl. now rewrite <- H.
Qed.

Lemma piece_rev x s : piece x s -> piece (rev x) (rev s).
Proof.
  intros (p & q & ->). exists (rev q), (rev p).
  now rewrite !rev_app_distr, <- app_assoc.
Qed.

Lemma rstrip_piece s : piece (rstrip s) s.
Proof.
  unfold rstrip. rewrite <- (rev_involutive s) at 2.
  apply piece_rev, lstrip_piece.
Qed.

Lemma strip_piece s : piece (strip s) s.
Proof.
  unfold strip. eapply piece_trans; [apply rstrip_piece | apply lstrip_piece].
Qed.

Lemma slice_from_piece s (i : Z) : piece (slice_from s i) s.
Proof.
  unfold slice_from. exists (firstn (Z.to_nat (clamp (len s) i)) s), [].
  now rewrite app_nil_r, firstn_skipn.
Qed.

Lemma slice_to_piece s (j : Z) : piece (slice_to s j) s.
Proof.
  unfold slice_to. exists [], (skipn (Z.to_nat (clamp (len s) j)) s).
  simpl. now rewrite firstn_skipn.
Qed.

Lemma if_piece (c : bool) x s : piece x s -> piece (if c then x else s) s.
Proof. destruct c; [trivial | intros _; apply piece_refl]. Qed.

End Pieces.

(** ** The handler past its checks *)

Section HandlerFacts.

Variable env : Collaborators.

(** Whatever [build_response] returns satisfies the invariant of the
    response. *)
Lemma build_response_invariant file_name questions_data response :
  build_response env file_name questions_data = inr response ->
  success response = true
  /\ total_questions response
     = len (mcq_questions response) + len (short_answer_questions response)
       + len (fill_in_the_blanks response)
  /\ message response
     = lit "Successfully generated "
       ++ str_of_int (total_questions response)
       ++ lit " questions from " ++ file_name.
Proof.
  unfold build_response.
  destruct (comprehension env "MCQQuestion" _ _ _); [discriminate|].
  destruct (comprehension env "ShortAnswerQuestion" _ _ _); [discriminate|].
  destruct (comprehension env "FillInTheBlank" _ _ _); [discriminate|].
  intros [= <-]. repeat split.
Qed.

(** The handler past its checks, on a text of at least 100 characters. *)
Lemma generate_quiz_past_checks file a b c text :
  endswith (filename file) (lit ".pdf") = true ->
  len (content file) <= 10 * 1024 * 1024 ->
  snd (extract_text_from_pdf env (content file)) = inr text ->
  100 <= len text ->
  generate_quiz env file a b c
  = (full_trace env file text a b c,
     match snd (generate_questions_with_azure env text a b c) with
     | inl h => inl h
     | inr questions_data =>
         match build_response env (filename file) questions_data with
         | inl e => inl (HTTPError 500 (lit "Error: " ++ exc_text e))
         | inr response => inr response
         end
     end).
Proof.
  intros Hext Hsize Htext Hlen.
  rewrite generate_quiz_run, Hext, Htext. cbn [negb].
  destruct (Z.gtb_spec (len (content file)) (10 * 1024 * 1024)); [lia|].
  destruct (Z.ltb_spec (len text) 100); [lia|].
  reflexivity.
Qed.

Lemma for_each_app_fail {E A B : Type} (f : A -> E + B) xs x rest ys e :
  for_each f xs = inr ys -> f x = inl e ->
  for_each f (xs ++ x :: rest) = inl e.
Proof.
  revert ys; induction xs as [|x0 xs IH]; intros ys Hxs Hx; simpl in *.
  - now rewrite Hx.
  - destruct (f x0); [discriminate|].
    destruct (for_each f xs) as [|ys'] eqn:Hys; [discriminate|].
    now rewrite (IH ys' eq_refl Hx).
Qed.

Lemma dict_lookup_set_other d key v name :
  str_eqb key (lit name) = false ->
  dict_lookup (dict_set d key v) (lit name) = dict_lookup d (lit name).
Proof. intros H. now rewrite dict_lookup_set, H. Qed.

End HandlerFacts.

(** ** The size of the prompt *)

Lemma len_cons {A : Type} (x : A) (l : list A) : len (x :: l) = 1 + len l.
Proof. unfold len. cbn [List.length]. lia. Qed.

Lemma len_lines_cons (l : str) (ls : list str) :
  len (lines (l :: ls))
  = len l + match ls with [] => 0 | _ :: _ => 1 + len (lines ls) end.
Proof.
  destruct ls as [|l' ls]; cbn [lines].
  - lia.
  - now rewrite len_app, len_cons.
Qed.

Lemma len_slice_to {A : Type} (s : list A) (j : Z) :
  0 <= j -> len (slice_to s j) <= j.
Proof.
  intros Hj. rewrite slice_to_firstn by assumption.
  unfold len. pose proof (firstn_le_length (Z.to_nat j) s) as H.
  rewrite length_firstn. lia.
Qed.

Lemma len_count_numeral (n : Z) : 1 <= n <= 10 -> len (str_of_int n) <= 2.
Proof.
  intros H.
  assert (n = 1 \/ n = 2 \/ n = 3 \/ n = 4 \/ n = 5 \/ n = 6 \/ n = 7
          \/ n = 8 \/ n = 9 \/ n = 10) as Hn by lia.
  repeat (destruct Hn as [-> | Hn]; [vm_compute; discriminate|]).
  subst n. vm_compute. discriminate.
Qed.

(** The lengths of the closed texts of a goal, computed. *)
Ltac compute_lens :=
  repeat match goal with
         | |- context [len ?l] =>
             let v := eval vm_compute in (len l) in
             change (len l) with v
         end.

Lemma len_prompt (text : str) (a b c : Z) :
  len (prompt text a b c)
  = 827 + len (slice_to text 8000)
    + len (str_of_int a) + len (str_of_int b) + len (str_of_int c).
Proof.
  unfold prompt. rewrite !len_lines_cons, !len_app.
  remember (len (slice_to text 8000)) as n0.
  remember (len (str_of_int a)) as na.
  remember (len (str_of_int b)) as nb.
  remember (len (str_of_int c)) as nc.
  compute_lens. lia.
Qed.

(* ================================================================== *)
(** * Part III: the claims *)
(* ================================================================== *)

(** ** The request handler: rejections *)

(** C7: a request whose file name does not end with [.pdf] is rejected
    with status 400 and the detail "Only PDF files are allowed", and the
    trace of the handler is empty: the upload is not read and no
    extraction is attempted. *)
Theorem unsupported_extension_rejected_first
  (env : Collaborators) (file : UploadFile) (a b c : Z) :
  endswith (filename file) (lit ".pdf") = false ->
  generate_quiz env file a b c
  = ([], inl (HTTPError 400 (lit "Only PDF files are allowed"))).
Proof.
  intros H. rewrite generate_quiz_run, H. reflexivity.
Qed.

Lemma unsupported_extension_rejected_first_witness :
  generate_quiz (Stub.env None) Samples.spreadsheet 5 3 3
  = ([], inl (HTTPError 400 (lit "Only PDF files are allowed"))).
Proof.
  apply (unsupported_extension_rejected_first
           (Stub.env None) Samples.spreadsheet 5 3 3).
  reflexivity.
Defined.

(** C10: the extension is compared with the lower-case [.pdf] letter for
    letter: a name that ends with an upper-case or mixed-case spelling of
    it, such as [.PDF], is rejected with status 400 and the detail
    "Only PDF files are allowed". *)
Theorem uppercase_extension_rejected
  (env : Collaborators) (stem suffix : str) (bytes : list Byte.byte)
  (a b c : Z) :
  case_variant_of_pdf suffix = true ->
  generate_quiz env {| filename := stem ++ suffix; content := bytes |} a b c
  = ([], inl (HTTPError 400 (lit "Only PDF files are allowed"))).
Proof.
  unfold case_variant_of_pdf. intros H.
  apply andb_true_iff in H as [Hlow Hne].
  apply str_eqb_eq in Hlow.
  rewrite generate_quiz_run. cbn [filename].
  rewrite endswith_other_suffix; [reflexivity | |].
  - rewrite <- Hlow. symmetry. apply length_map.
  - intros ->. rewrite str_eqb_refl in Hne. discriminate.
Qed.

Lemma uppercase_extension_rejected_witness :
  generate_quiz (Stub.env None)
    {| filename := lit "lecture" ++ lit ".PDF";
       content := content Samples.lecture |} 5 3 3
  = ([], inl (HTTPError 400 (lit "Only PDF files are allowed"))).
Proof.
  apply (uppercase_extension_rejected (Stub.env None) (lit "lecture")
           (lit ".PDF") (content Samples.lecture) 5 3 3).
  reflexivity.
Defined.

(** C6: for a file with the accepted extension, a payload of exactly
    10 * 1024 * 1024 bytes passes the size check (its extraction is
    attempted, and the outcome is not the "File too large" rejection), and
    a payload of one byte more is rejected with status 400 and the detail
    "File too large. Max 10MB" before any extraction. *)
Theorem size_cap_boundary
  (env : Collaborators) (file : UploadFile) (a b c : Z) :
  endswith (filename file) (lit ".pdf") = true ->
  (len (content file) = 10 * 1024 * 1024 ->
   In (PdfOpened (content file)) (fst (generate_quiz env file a b c))
   /\ snd (generate_quiz env file a b c)
      <> inl (HTTPError 400 (lit "File too large. Max 10MB")))
  /\ (len (content file) = 10 * 1024 * 1024 + 1 ->
      generate_quiz env file a b c
      = ([ReadUpload],
         inl (HTTPError 400 (lit "File too large. Max 10MB")))).
Proof.
  intros Hext. rewrite generate_quiz_run, Hext. cbn [negb].
  split; intros Hlen; rewrite Hlen.
  - change (10 * 1024 * 1024 >? 10 * 1024 * 1024) with false. cbv iota.
    rewrite extract_text_from_pdf_run. cbn [snd].
    destruct (PdfReader_pages env (content file)) as [e|pages].
    { split; [right; left; reflexivity | discriminate]. }
    destruct (read_pages pages []) as [e|text].
    { split; [right; left; reflexivity | discriminate]. }
    destruct (len (strip text) <? 100).
    { split; [right; left; reflexivity | discriminate]. }
    split; [right; left; reflexivity |].
    rewrite generate_questions_with_azure_run. cbn [snd fst].
    unfold completion_error.
    destruct (chat_completions_create env _) as [e|[response_text|]].
    + destruct (is_json_decode_error _); discriminate.
    + destruct (decode_completion env response_text) as [e|questions_data].
      * destruct (is_json_decode_error _); discriminate.
      * destruct (build_response env _ questions_data); discriminate.
    + destruct (is_json_decode_error _); discriminate.
  - reflexivity.
Qed.

Lemma size_cap_boundary_witness :
  (In (PdfOpened (content Samples.at_cap))
      (fst (generate_quiz (Stub.env None) Samples.at_cap 5 3 3))
   /\ snd (generate_quiz (Stub.env None) Samples.at_cap 5 3 3)
      <> inl (HTTPError 400 (lit "File too large. Max 10MB")))
  /\ generate_quiz (Stub.env None) Samples.over_cap 5 3 3
     = ([ReadUpload], inl (HTTPError 400 (lit "File too large. Max 10MB"))).
Proof.
  split.
  - apply (size_cap_boundary (Stub.env None) Samples.at_cap 5 3 3);
      [reflexivity|].
    cbn [content Samples.at_cap]. rewrite len_doubled. reflexivity.
  - apply (size_cap_boundary (Stub.env None) Samples.over_cap 5 3 3);
      [reflexivity|].
    cbn [content Samples.over_cap].
    change (len (Byte.x00 :: doubled 20 Samples.ten_bytes))
      with (Z.of_nat (S (List.length (doubled 20 Samples.ten_bytes)))).
    rewrite Nat2Z.inj_succ.
    change (Z.of_nat (List.length (doubled 20 Samples.ten_bytes)))
      with (len (doubled 20 Samples.ten_bytes)).
    rewrite len_doubled. reflexivity.
Defined.

(** C4: when the text extracted from the upload is empty or shorter than
    100 characters, the handler answers with a 400 error and its trace
    holds no call of the model; for a file that passed the extension and
    size checks the error is "PDF text too short. Need at least 100
    characters", raised right after the extraction. *)
Theorem short_text_rejected_without_model_call
  (env : Collaborators) (file : UploadFile) (a b c : Z) (text : str) :
  snd (extract_text_from_pdf env (content file)) = inr text ->
  len text < 100 ->
  (exists h, snd (generate_quiz env file a b c) = inl h /\ status_code h = 400)
  /\ (forall request,
        ~ In (ModelCalled request) (fst (generate_quiz env file a b c)))
  /\ (endswith (filename file) (lit ".pdf") = true ->
      len (content file) <= 10 * 1024 * 1024 ->
      generate_quiz env file a b c
      = ([ReadUpload; PdfOpened (content file)],
         inl (HTTPError 400
                (lit "PDF text too short. Need at least 100 characters")))).
Proof.
  intros Htext Hlen. rewrite generate_quiz_run, Htext.
  apply Z.ltb_lt in Hlen. rewrite Hlen.
  destruct (endswith (filename file) (lit ".pdf")); cbn [negb].
  - destruct (Z.gtb_spec (len (content file)) (10 * 1024 * 1024)) as [Hbig|Hok].
    + split; [eexists; split; reflexivity|].
      split; [|intros _ H; exfalso; lia].
      intros request [H|[]]; discriminate.
    + split; [eexists; split; reflexivity|].
      split; [|reflexivity].
      intros request [H|[H|[]]]; discriminate.
  - split; [eexists; split; reflexivity|].
    split; [|discriminate].
    intros request [].
Qed.

Lemma short_text_rejected_without_model_call_witness :
  (exists h, snd (generate_quiz (Stub.env None) Samples.note 5 3 3) = inl h
             /\ status_code h = 400)
  /\ (forall request,
        ~ In (ModelCalled request)
             (fst (generate_quiz (Stub.env None) Samples.note 5 3 3)))
  /\ (endswith (filename Samples.note) (lit ".pdf") = true ->
      len (content Samples.note) <= 10 * 1024 * 1024 ->
      generate_quiz (Stub.env None) Samples.note 5 3 3
      = ([ReadUpload; PdfOpened (content Samples.note)],
         inl (HTTPError 400
                (lit "PDF text too short. Need at least 100 characters")))).
Proof.
  apply (short_text_rejected_without_model_call (Stub.env None) Samples.note
           5 3 3 (lit "Cells divide.")).
  - reflexivity.
  - vm_compute. reflexivity.
Defined.

(** ** The catch-all handler *)



(** ** The cleaning and decoding of the completion *)

(** C3, as the code has it: a completion that carries no fence of its own
    (trimmed, it neither starts nor ends with three backticks) decodes to
    the same result, value or error, when it is wrapped in a fenced block:
    blanks, the opening fence with or without the tag [json], blanks, the
    completion, blanks, the closing fence, blanks.  An untagged opening
    fence must not be followed at once by a text that starts with [json],
    which would be read as the tag. *)
Theorem fenced_completion_decodes_alike
  (env : Collaborators) (w : fencing) (s : str) :
  well_formed_fencing w = true ->
  startswith (strip s) fence = false ->
  endswith (strip s) fence = false ->
  (tagged w = false -> startswith (after_open w ++ s) (lit "json") = false) ->
  decode_completion env (wrap w s) = decode_completion env s.
Proof.
  intros Hw Hs He Hj. unfold decode_completion.
  now rewrite clean_response_wrap, clean_response_unfenced.
Qed.

Lemma fenced_completion_decodes_alike_witness :
  decode_completion (Stub.env None) (wrap Samples.json_block Samples.quiz_text)
  = decode_completion (Stub.env None) Samples.quiz_text
  /\ decode_completion (Stub.env None)
       (wrap Samples.bare_block Samples.quiz_text)
     = decode_completion (Stub.env None) Samples.quiz_text.
Proof.
  split.
  - apply (fenced_completion_decodes_alike (Stub.env None) Samples.json_block
             Samples.quiz_text).
    + reflexivity.
    + vm_compute. reflexivity.
    + vm_compute. reflexivity.
    + discriminate.
  - apply (fenced_completion_decodes_alike (Stub.env None) Samples.bare_block
             Samples.quiz_text).
    + reflexivity.
    + vm_compute. reflexivity.
    + vm_compute. reflexivity.
    + intros _. vm_compute. reflexivity.
Defined.

(** C3, as stated, fails for a completion that is fenced already: alone it
    is cleaned and decodes to the empty object; wrapped in one more fenced
    block it keeps its own fence and does not decode. *)
Lemma fenced_twice_decodes_differently :
  well_formed_fencing Samples.json_block = true
  /\ decode_completion (Stub.env None)
       (wrap Samples.json_block (wrap Samples.json_block (lit "{}")))
     <> decode_completion (Stub.env None) (wrap Samples.json_block (lit "{}"))
  /\ decode_completion (Stub.env None) (wrap Samples.json_block (lit "{}"))
     = inr (JObject [])
  /\ decode_completion (Stub.env None)
       (wrap Samples.json_block (wrap Samples.json_block (lit "{}")))
     = inl RefJson.decode_error.
Proof.
  split; [reflexivity|].
  split; [vm_compute; discriminate|].
  split; reflexivity.
Qed.

(** The other two conditions are needed as well.  A completion that ends
    with a fence of its own loses it alone and keeps it inside a block. *)
Example closing_fence_of_its_own :
  decode_completion (Stub.env None) (lit "{}```") = inr (JObject [])
  /\ decode_completion (Stub.env None)
       (wrap Samples.json_block (lit "{}```"))
     = inl RefJson.decode_error.
Proof. split; reflexivity. Qed.

(** And a text that starts with [json], right after an untagged fence, is
    read as the tag and loses these four letters. *)
Example text_read_as_the_tag :
  clean_response (lit "json{}") = lit "json{}"
  /\ clean_response (wrap Samples.bare_block (lit "json{}")) = lit "{}"
  /\ decode_completion (Stub.env None) (lit "json{}")
     <> decode_completion (Stub.env None)
          (wrap Samples.bare_block (lit "json{}")).
Proof.
  split; [reflexivity|]. split; [reflexivity|]. vm_compute. discriminate.
Qed.

(** ** The prompt *)

(** C8: for every text and all three counts between 1 and 10, the prompt
    opens with its fixed heading followed by the first 8000 characters of
    the text, unchanged; it holds the line of each category with the
    decimal numeral of the count asked for; and it holds each field name of
    the schema between double quotes. *)
Theorem prompt_embeds_text_counts_and_schema (text : str) (a b c : Z) :
  1 <= a <= 10 -> 1 <= b <= 10 -> 1 <= c <= 10 ->
  (exists rest,
     prompt text a b c
     = lit "Based on the following text, generate questions in THREE categories:"
       ++ [newline; newline] ++ lit "TEXT:" ++ [newline]
       ++ firstn (Z.to_nat 8000) text ++ newline :: rest)
  /\ contains (prompt text a b c)
       (lit "1. " ++ str_of_int a ++ lit " Multiple Choice Questions (MCQ)")
     = true
  /\ contains (prompt text a b c)
       (lit "2. " ++ str_of_int b ++ lit " Short Answer Questions") = true
  /\ contains (prompt text a b c)
       (lit "3. " ++ str_of_int c ++ lit " Fill in the Blank Questions") = true
  /\ nth_error count_numerals (Z.to_nat (a - 1)) = Some (str_of_int a)
  /\ nth_error count_numerals (Z.to_nat (b - 1)) = Some (str_of_int b)
  /\ nth_error count_numerals (Z.to_nat (c - 1)) = Some (str_of_int c)
  /\ Forall (fun name => contains (prompt text a b c) (quoted name) = true)
       schema_field_names.
Proof.
  intros Ha Hb Hc.
  split; [apply prompt_opening|].
  unfold prompt.
  split; [this_line|].
  split; [this_line|].
  split; [this_line|].
  split; [now apply count_numeral|].
  split; [now apply count_numeral|].
  split; [now apply count_numeral|].
  unfold schema_field_names.
  repeat (apply Forall_cons; [search_lines|]).
  apply Forall_nil.
Qed.

Lemma prompt_embeds_text_counts_and_schema_witness :
  (exists rest,
     prompt (lit Samples.page) 3 2 2
     = lit "Based on the following text, generate questions in THREE categories:"
       ++ [newline; newline] ++ lit "TEXT:" ++ [newline]
       ++ firstn (Z.to_nat 8000) (lit Samples.page) ++ newline :: rest)
  /\ contains (prompt (lit Samples.page) 3 2 2)
       (lit "1. " ++ str_of_int 3 ++ lit " Multiple Choice Questions (MCQ)")
     = true
  /\ contains (prompt (lit Samples.page) 3 2 2)
       (lit "2. " ++ str_of_int 2 ++ lit " Short Answer Questions") = true
  /\ contains (prompt (lit Samples.page) 3 2 2)
       (lit "3. " ++ str_of_int 2 ++ lit " Fill in the Blank Questions") = true
  /\ nth_error count_numerals (Z.to_nat (3 - 1)) = Some (str_of_int 3)
  /\ nth_error count_numerals (Z.to_nat (2 - 1)) = Some (str_of_int 2)
  /\ nth_error count_numerals (Z.to_nat (2 - 1)) = Some (str_of_int 2)
  /\ Forall (fun name =>
               contains (prompt (lit Samples.page) 3 2 2) (quoted name) = true)
       schema_field_names.
Proof.
  apply (prompt_embeds_text_counts_and_schema (lit Samples.page) 3 2 2); lia.
Defined.

(** A text longer than the budget is cut at 8000 characters. *)
Example prompt_cuts_long_text :
  exists rest,
    prompt (doubled 7 (lit Samples.page)) 1 1 1
    = lit "Based on the following text, generate questions in THREE categories:"
      ++ [newline; newline] ++ lit "TEXT:" ++ [newline]
      ++ firstn (Z.to_nat 8000) (doubled 7 (lit Samples.page))
      ++ newline :: rest
    /\ len (doubled 7 (lit Samples.page)) = 13568
    /\ len (firstn (Z.to_nat 8000) (doubled 7 (lit Samples.page))) = 8000.
Proof.
  destruct (prompt_opening (doubled 7 (lit Samples.page)) 1 1 1) as [rest H].
  exists rest. split; [exact H|]. split; vm_compute; reflexivity.
Qed.

(** ** The shaping of the answer *)

(** C9: when one of the three lists is absent from the decoded document,
    the comprehension over it builds the empty collection without raising,
    and the response is the one of the same document with that list
    present and empty. *)
Theorem missing_list_defaults_to_empty
  (env : Collaborators) (file_name : str) (d : list (str * json))
  (key : string) :
  In key list_keys ->
  dict_lookup d (lit key) = None ->
  (forall (A : Type) (name : string)
          (validate : list (str * json) -> option A),
     comprehension env name validate (JObject d) key = inr [])
  /\ build_response env file_name (JObject d)
     = build_response env file_name
         (JObject (dict_set d (lit key) (JList []))).
Proof.
  intros _ H. split.
  - intros A name validate. unfold comprehension, get_or_empty.
    now rewrite H.
  - unfold build_response. now rewrite !comprehension_set.
Qed.

Lemma missing_list_defaults_to_empty_witness :
  (forall (A : Type) (name : string)
          (validate : list (str * json) -> option A),
     comprehension (Stub.env None) name validate
       (JObject [(lit "mcq", JList [])]) "short_answer" = inr [])
  /\ build_response (Stub.env None) (lit "lecture.pdf")
       (JObject [(lit "mcq", JList [])])
     = build_response (Stub.env None) (lit "lecture.pdf")
         (JObject (dict_set [(lit "mcq", JList [])] (lit "short_answer")
                     (JList []))).
Proof.
  apply (missing_list_defaults_to_empty (Stub.env None) (lit "lecture.pdf")
           [(lit "mcq", JList [])] "short_answer").
  - simpl. tauto.
  - reflexivity.
Defined.

(** C1: for an upload that passes the checks and yields a text of at least
    100 characters, and a well-formed answer of the model, the handler
    returns a response with [success] true whose [total_questions] is the
    sum of the lengths of its three collections, each collection holding
    one question a record of the answer. *)
Theorem well_formed_answer_counts
  (env : Collaborators) (file : UploadFile) (a b c : Z) (text : str)
  (questions_data : json) :
  endswith (filename file) (lit ".pdf") = true ->
  len (content file) <= 10 * 1024 * 1024 ->
  snd (extract_text_from_pdf env (content file)) = inr text ->
  100 <= len text ->
  snd (generate_questions_with_azure env text a b c) = inr questions_data ->
  well_formed_document questions_data = true ->
  exists response,
    snd (generate_quiz env file a b c) = inr response
    /\ success response = true
    /\ total_questions response
       = len (mcq_questions response)
         + len (short_answer_questions response)
         + len (fill_in_the_blanks response)
    /\ exists d,
         questions_data = JObject d
         /\ len (mcq_questions response) = record_count d "mcq"
         /\ len (short_answer_questions response)
            = record_count d "short_answer"
         /\ len (fill_in_the_blanks response)
            = record_count d "fill_in_the_blanks".
Proof.
  intros Hext Hsize Htext Hlen Hdata Hwf.
  destruct questions_data as [| | | | | |d]; try discriminate.
  cbn [well_formed_document] in Hwf.
  apply andb_true_iff in Hwf as [Hwf Hblank].
  apply andb_true_iff in Hwf as [Hmcq Hshort].
  destruct (comprehension_well_formed env "MCQQuestion"
              (validate_MCQQuestion env) _ d "mcq"
              (validate_MCQQuestion_well_formed env) Hmcq)
    as (mcq & Emcq & Lmcq).
  destruct (comprehension_well_formed env "ShortAnswerQuestion"
              (validate_ShortAnswerQuestion env) _ d "short_answer"
              (validate_ShortAnswerQuestion_well_formed env) Hshort)
    as (short & Eshort & Lshort).
  destruct (comprehension_well_formed env "FillInTheBlank"
              (validate_FillInTheBlank env) _ d "fill_in_the_blanks"
              (validate_FillInTheBlank_well_formed env) Hblank)
    as (blank & Eblank & Lblank).
  rewrite generate_quiz_run, Hext, Htext, Hdata. cbn [negb snd].
  destruct (Z.gtb_spec (len (content file)) (10 * 1024 * 1024)); [lia|].
  destruct (Z.ltb_spec (len text) 100); [lia|].
  unfold build_response. rewrite Emcq, Eshort, Eblank.
  eexists. split; [reflexivity|]. cbn.
  split; [reflexivity|]. split; [reflexivity|].
  exists d. auto.
Qed.

Lemma well_formed_answer_counts_witness :
  exists response,
    snd (generate_quiz
           (Stub.env (Some (wrap Samples.json_block Samples.quiz_text)))
           Samples.lecture 3 2 2) = inr response
    /\ success response = true
    /\ total_questions response
       = len (mcq_questions response)
         + len (short_answer_questions response)
         + len (fill_in_the_blanks response)
    /\ exists d,
         Samples.decoded Samples.quiz_text = JObject d
         /\ len (mcq_questions response) = record_count d "mcq"
         /\ len (short_answer_questions response)
            = record_count d "short_answer"
         /\ len (fill_in_the_blanks response)
            = record_count d "fill_in_the_blanks".
Proof.
  apply (well_formed_answer_counts
           (Stub.env (Some (wrap Samples.json_block Samples.quiz_text)))
           Samples.lecture 3 2 2 (lit Samples.page)
           (Samples.decoded Samples.quiz_text)).
  - reflexivity.
  - vm_compute. discriminate.
  - vm_compute. reflexivity.
  - vm_compute. discriminate.
  - vm_compute. reflexivity.
  - vm_compute. reflexivity.
Defined.

(** The scenario of the specification: a document of more than 100
    characters, counts (3, 2, 2), and a model that answers with three MCQs,
    two short-answer questions and two blanks. *)
Example scenario_three_two_two :
  exists response,
    snd (generate_quiz
           (Stub.env (Some (wrap Samples.json_block Samples.quiz_text)))
           Samples.lecture 3 2 2) = inr response
    /\ success response = true
    /\ total_questions response = 7
    /\ message response
       = lit "Successfully generated 7 questions from lecture.pdf".
Proof. eexists. split; [vm_compute; reflexivity|]. repeat split. Qed.



(** The record of the example is rejected for its missing
    [correct_answer], whatever the validator of the [str] fields. *)
Example record_without_correct_answer (env : Collaborators) :
  validate_MCQQuestion env
    (Samples.members (Samples.decoded Samples.mcq_without_answer)) = None.
Proof. apply validate_MCQQuestion_missing_answer. reflexivity. Qed.

(* ================================================================== *)
(** * Part IV: further properties of the code *)
(* ================================================================== *)

(** ** The extraction of the text *)

(** X1: when every page can be read, the extracted text is the texts of
    the pages in order, a newline after each, with the blanks at both ends
    removed, so that it neither starts nor ends with a blank; the document
    is opened once. *)
Theorem extraction_joins_pages
  (env : Collaborators) (b : list Byte.byte) (texts : list str) :
  PdfReader_pages env b = inr (map inr texts) ->
  extract_text_from_pdf env b = ([PdfOpened b], inr (strip (page_lines texts)))
  /\ lstrip (strip (page_lines texts)) = strip (page_lines texts)
  /\ rstrip (strip (page_lines texts)) = strip (page_lines texts).
Proof.
  intros H. rewrite extract_text_from_pdf_run, H, read_pages_all.
  split; [reflexivity|]. unfold strip. split.
  - apply left_trimmed_rstrip, lstrip_idempotent.
  - apply rstrip_idempotent.
Qed.

Lemma extraction_joins_pages_witness :
  extract_text_from_pdf (Fake.service Fake.two_pages (inr None))
    (content Samples.note)
  = ([PdfOpened (content Samples.note)],
     inr (strip (page_lines [lit "  Cells divide."; lit "Plants grow. "])))
  /\ lstrip (strip (page_lines [lit "  Cells divide."; lit "Plants grow. "]))
     = strip (page_lines [lit "  Cells divide."; lit "Plants grow. "])
  /\ rstrip (strip (page_lines [lit "  Cells divide."; lit "Plants grow. "]))
     = strip (page_lines [lit "  Cells divide."; lit "Plants grow. "]).
Proof.
  apply (extraction_joins_pages (Fake.service Fake.two_pages (inr None))
           (content Samples.note)
           [lit "  Cells divide."; lit "Plants grow. "]).
  reflexivity.
Defined.

(** The two pages of the example, joined and trimmed. *)
Example two_pages_joined :
  snd (extract_text_from_pdf (Fake.service Fake.two_pages (inr None))
         (content Samples.note))
  = inr (lit "Cells divide." ++ newline :: lit "Plants grow.").
Proof. reflexivity. Qed.

(** X2: when the reader cannot open the document, or a page cannot be
    read, the extraction raises a 400 whose detail is "Error reading PDF: "
    followed by the text of that failure; the pages after the one that
    failed play no part. *)
Theorem extraction_failure_is_a_400
  (env : Collaborators) (b : list Byte.byte) (e : pyexc) :
  PdfReader_pages env b = inl e
  \/ (exists texts rest,
        PdfReader_pages env b = inr (map inr texts ++ inl e :: rest)) ->
  extract_text_from_pdf env b
  = ([PdfOpened b],
     inl (HTTPError 400 (lit "Error reading PDF: " ++ exc_text e))).
Proof.
  intros [H | (texts & rest & H)]; rewrite extract_text_from_pdf_run, H.
  - reflexivity.
  - now rewrite read_pages_stops.
Qed.

Lemma extraction_failure_is_a_400_witness :
  extract_text_from_pdf (Fake.service Fake.broken_reader (inr None))
    (content Samples.note)
  = ([PdfOpened (content Samples.note)],
     inl (HTTPError 400
            (lit "Error reading PDF: " ++ exc_text Fake.not_a_pdf)))
  /\ extract_text_from_pdf (Fake.service Fake.torn_page (inr None))
       (content Samples.note)
     = ([PdfOpened (content Samples.note)],
        inl (HTTPError 400
               (lit "Error reading PDF: " ++ exc_text Fake.not_a_pdf))).
Proof.
  split.
  - apply (extraction_failure_is_a_400
             (Fake.service Fake.broken_reader (inr None))
             (content Samples.note) Fake.not_a_pdf).
    left. reflexivity.
  - apply (extraction_failure_is_a_400
             (Fake.service Fake.torn_page (inr None))
             (content Samples.note) Fake.not_a_pdf).
    right. exists [lit "Cells divide."], [inr (lit "Plants grow.")].
    reflexivity.
Defined.

(** X3: a document of blank pages, or of no page at all, yields the empty
    text, and the handler rejects it with the 400 "PDF text too short"
    without calling the model. *)
Theorem blank_document_rejected
  (env : Collaborators) (file : UploadFile) (a b c : Z) (texts : list str) :
  endswith (filename file) (lit ".pdf") = true ->
  len (content file) <= 10 * 1024 * 1024 ->
  PdfReader_pages env (content file) = inr (map inr texts) ->
  forallb blank texts = true ->
  snd (extract_text_from_pdf env (content file)) = inr []
  /\ generate_quiz env file a b c
     = ([ReadUpload; PdfOpened (content file)],
        inl (HTTPError 400
               (lit "PDF text too short. Need at least 100 characters"))).
Proof.
  intros Hext Hsize Hpages Hblank.
  assert (snd (extract_text_from_pdf env (content file)) = inr []) as Htext.
  { rewrite extract_text_from_pdf_run, Hpages, read_pages_all. cbn [snd app].
    now rewrite strip_all_blank by now apply blank_page_lines. }
  split; [assumption|].
  rewrite generate_quiz_run, Hext, Htext. cbn [negb].
  destruct (Z.gtb_spec (len (content file)) (10 * 1024 * 1024)); [lia|].
  reflexivity.
Qed.

Lemma blank_document_rejected_witness :
  snd (extract_text_from_pdf (Fake.service Fake.blank_pages (inr None))
         (content Samples.lecture)) = inr []
  /\ generate_quiz (Fake.service Fake.blank_pages (inr None))
       Samples.lecture 5 3 3
     = ([ReadUpload; PdfOpened (content Samples.lecture)],
        inl (HTTPError 400
               (lit "PDF text too short. Need at least 100 characters"))).
Proof.
  apply (blank_document_rejected (Fake.service Fake.blank_pages (inr None))
           Samples.lecture 5 3 3 [lit "   "; []]).
  - reflexivity.
  - vm_compute. discriminate.
  - reflexivity.
  - reflexivity.
Defined.

(** ** The cleaning of the completion *)

(** X4: whatever the completion, the cleaning only removes characters
    from its two ends: the cleaned text is a contiguous piece of the
    completion, no longer than it, and has no blank at either end. *)
Theorem cleaning_keeps_a_piece (response_text : str) :
  piece (clean_response response_text) response_text
  /\ len (clean_response response_text) <= len response_text
  /\ strip (clean_response response_text) = clean_response response_text.
Proof.
  assert (piece (clean_response response_text) response_text) as H.
  { unfold clean_response.
    eapply piece_trans; [apply strip_piece|].
    eapply piece_trans; [apply if_piece, slice_to_piece|].
    eapply piece_trans; [apply if_piece, slice_from_piece|].
    eapply piece_trans; [apply if_piece, slice_from_piece|].
    apply strip_piece. }
  split; [assumption|]. split; [now apply piece_len|].
  unfold clean_response. apply strip_idempotent.
Qed.

(** X5: a completion that is trimmed already and has no fence at either
    end goes to the decoder unchanged. *)
Theorem plain_completion_unchanged (response_text : str) :
  strip response_text = response_text ->
  startswith response_text fence = false ->
  endswith response_text fence = false ->
  clean_response response_text = response_text.
Proof.
  intros Ht Hs He.
  rewrite clean_response_unfenced; rewrite Ht; auto.
Qed.

Lemma plain_completion_unchanged_witness :
  clean_response Samples.quiz_text = Samples.quiz_text.
Proof.
  apply (plain_completion_unchanged Samples.quiz_text);
    vm_compute; reflexivity.
Defined.

(** X6: between an opening fence that is not followed by [json] and a
    closing fence, everything is kept: a tag in another spelling, such as
    [JSON], stays in the text that goes to the decoder. *)
Theorem other_tag_is_kept (a rest b : str) :
  blank a = true -> blank b = true ->
  startswith (rest ++ fence) (lit "json") = false ->
  clean_response (a ++ (fence ++ rest ++ fence) ++ b) = strip rest.
Proof.
  intros Ha Hb Hj. unfold clean_response.
  rewrite strip_fenced by assumption.
  rewrite fence_json, startswith_common_prefix, Hj.
  rewrite startswith_app, slice_from_app by reflexivity.
  now rewrite close_fence.
Qed.

Lemma other_tag_is_kept_witness :
  clean_response
    ([] ++ (fence ++ (lit "JSON" ++ newline :: lit "{}" ++ [newline])
            ++ fence) ++ [newline])
  = strip (lit "JSON" ++ newline :: lit "{}" ++ [newline]).
Proof.
  apply (other_tag_is_kept []
           (lit "JSON" ++ newline :: lit "{}" ++ [newline]) [newline]);
    reflexivity.
Defined.

(** ** The call of the model *)

(** X7: the call returns a document exactly when the client returned a
    text and the decoder accepts the cleaned text; the document is the
    decoder's. *)
Theorem completion_succeeds_iff
  (env : Collaborators) (text : str) (a b c : Z) (questions_data : json) :
  snd (generate_questions_with_azure env text a b c) = inr questions_data
  <-> exists response_text,
        chat_completions_create env (completion_request env text a b c)
        = inr (Some response_text)
        /\ json_loads env (clean_response response_text) = inr questions_data.
Proof.
  rewrite generate_questions_with_azure_run. cbn [snd].
  unfold decode_completion. split.
  - destruct (chat_completions_create env _) as [e|[response_text|]];
      try discriminate.
    destruct (json_loads env (clean_response response_text)) eqn:E;
      [discriminate|].
    intros [= <-]. now exists response_text.
  - intros (response_text & -> & ->). reflexivity.
Qed.

Lemma completion_succeeds_iff_witness :
  snd (generate_questions_with_azure
         (Stub.env (Some (wrap Samples.json_block Samples.mcq_only_text)))
         (lit Samples.page) 3 2 2)
  = inr (Samples.decoded Samples.mcq_only_text).
Proof.
  apply (completion_succeeds_iff
           (Stub.env (Some (wrap Samples.json_block Samples.mcq_only_text)))
           (lit Samples.page) 3 2 2 (Samples.decoded Samples.mcq_only_text)).
  exists (wrap Samples.json_block Samples.mcq_only_text).
  split; [reflexivity | vm_compute; reflexivity].
Defined.

(** X8: when the client or the decoder raises, the call is made once and
    not again, and the failure becomes a 500 whose detail is the text of the
    exception after "Failed to parse AI response: " for a
    [JSONDecodeError], whichever of the two raised it, and after
    "Azure OpenAI error: " for any other exception. *)
Theorem completion_failure_detail
  (env : Collaborators) (text : str) (a b c : Z) (e : pyexc) :
  chat_completions_create env (completion_request env text a b c) = inl e
  \/ (exists response_text,
        chat_completions_create env (completion_request env text a b c)
        = inr (Some response_text)
        /\ json_loads env (clean_response response_text) = inl e) ->
  generate_questions_with_azure env text a b c
  = ([ModelCalled (completion_request env text a b c)],
     inl (HTTPError 500
            ((if is_json_decode_error (exc_cls e)
              then lit "Failed to parse AI response: "
              else lit "Azure OpenAI error: ") ++ exc_text e))).
Proof.
  intros H. rewrite generate_questions_with_azure_run.
  unfold decode_completion, completion_error.
  destruct H as [-> | (response_text & -> & ->)];
    destruct (is_json_decode_error (exc_cls e)); reflexivity.
Qed.

Lemma completion_failure_detail_witness :
  generate_questions_with_azure
    (Fake.service Stub.pages_of_bytes (inl Fake.out_of_quota))
    (lit Samples.page) 3 2 2
  = ([ModelCalled
        (completion_request
           (Fake.service Stub.pages_of_bytes (inl Fake.out_of_quota))
           (lit Samples.page) 3 2 2)],
     inl (HTTPError 500
            ((if is_json_decode_error (exc_cls Fake.out_of_quota)
              then lit "Failed to parse AI response: "
              else lit "Azure OpenAI error: ")
             ++ exc_text Fake.out_of_quota)))
  /\ generate_questions_with_azure
       (Fake.service Stub.pages_of_bytes (inr (Some (lit "Sure! Here it is."))))
       (lit Samples.page) 3 2 2
     = ([ModelCalled
           (completion_request
              (Fake.service Stub.pages_of_bytes
                 (inr (Some (lit "Sure! Here it is."))))
              (lit Samples.page) 3 2 2)],
        inl (HTTPError 500
               ((if is_json_decode_error (exc_cls RefJson.decode_error)
                 then lit "Failed to parse AI response: "
                 else lit "Azure OpenAI error: ")
                ++ exc_text RefJson.decode_error))).
Proof.
  split.
  - apply (completion_failure_detail
             (Fake.service Stub.pages_of_bytes (inl Fake.out_of_quota))
             (lit Samples.page) 3 2 2 Fake.out_of_quota).
    left. reflexivity.
  - apply (completion_failure_detail
             (Fake.service Stub.pages_of_bytes
                (inr (Some (lit "Sure! Here it is."))))
             (lit Samples.page) 3 2 2 RefJson.decode_error).
    right. exists (lit "Sure! Here it is."). split; reflexivity.
Defined.

(** X9: a completion without content ([None]) is reported as a failure of
    the service: a 500 "Azure OpenAI error: " with the text of the
    attribute error that [.strip()] raises. *)
Theorem empty_content_is_a_service_error
  (env : Collaborators) (text : str) (a b c : Z) :
  chat_completions_create env (completion_request env text a b c) = inr None ->
  generate_questions_with_azure env text a b c
  = ([ModelCalled (completion_request env text a b c)],
     inl (HTTPError 500
            (lit "Azure OpenAI error: "
             ++ fault_text env (NoAttribute JNull (lit "strip"))))).
Proof.
  intros H. rewrite generate_questions_with_azure_run, H. reflexivity.
Qed.

Lemma empty_content_is_a_service_error_witness :
  generate_questions_with_azure (Stub.env None) (lit Samples.page) 3 2 2
  = ([ModelCalled (completion_request (Stub.env None) (lit Samples.page) 3 2 2)],
     inl (HTTPError 500
            (lit "Azure OpenAI error: "
             ++ fault_text (Stub.env None) (NoAttribute JNull (lit "strip"))))).
Proof.
  apply (empty_content_is_a_service_error (Stub.env None) (lit Samples.page)
           3 2 2).
  reflexivity.
Defined.

(** ** The size of the prompt *)

(** X10: for counts between 1 and 10 the prompt never exceeds 8833
    characters, however long the text: 827 fixed characters, at most 8000
    of the text and at most two digits a count. *)
Theorem prompt_is_bounded (text : str) (a b c : Z) :
  1 <= a <= 10 -> 1 <= b <= 10 -> 1 <= c <= 10 ->
  len (prompt text a b c) <= 8833
  /\ len (prompt text a b c)
     = 827 + Z.min (len text) 8000
       + len (str_of_int a) + len (str_of_int b) + len (str_of_int c).
Proof.
  intros Ha Hb Hc. rewrite len_prompt.
  pose proof (len_count_numeral a Ha). pose proof (len_count_numeral b Hb).
  pose proof (len_count_numeral c Hc).
  assert (len (slice_to text 8000) = Z.min (len text) 8000) as ->.
  { rewrite slice_to_firstn by lia. unfold len. rewrite length_firstn. lia. }
  split; lia.
Qed.

Lemma prompt_is_bounded_witness :
  len (prompt (doubled 7 (lit Samples.page)) 10 10 10) <= 8833
  /\ len (prompt (doubled 7 (lit Samples.page)) 10 10 10)
     = 827 + Z.min (len (doubled 7 (lit Samples.page))) 8000
       + len (str_of_int 10) + len (str_of_int 10) + len (str_of_int 10).
Proof.
  apply (prompt_is_bounded (doubled 7 (lit Samples.page)) 10 10 10); lia.
Defined.

(** X11: what follows the first 8000 characters of the text never reaches
    the model: the prompt, and with it the request, is the same with and
    without it. *)
Theorem text_beyond_budget_is_dropped
  (env : Collaborators) (text extra : str) (a b c : Z) :
  8000 <= len text ->
  prompt (text ++ extra) a b c = prompt text a b c
  /\ completion_request env (text ++ extra) a b c
     = completion_request env text a b c.
Proof.
  intros H.
  assert (prompt (text ++ extra) a b c = prompt text a b c) as Hp.
  { unfold prompt. rewrite !slice_to_firstn by lia.
    rewrite firstn_app.
    replace (Z.to_nat 8000 - List.length text)%nat with 0%nat
      by (unfold len in H; lia).
    cbn [firstn]. now rewrite app_nil_r. }
  split; [assumption|]. unfold completion_request. now rewrite Hp.
Qed.

Lemma text_beyond_budget_is_dropped_witness :
  prompt (doubled 7 (lit Samples.page) ++ lit "The end.") 3 2 2
  = prompt (doubled 7 (lit Samples.page)) 3 2 2
  /\ completion_request (Stub.env None)
       (doubled 7 (lit Samples.page) ++ lit "The end.") 3 2 2
     = completion_request (Stub.env None) (doubled 7 (lit Samples.page)) 3 2 2.
Proof.
  apply (text_beyond_budget_is_dropped (Stub.env None)
           (doubled 7 (lit Samples.page)) (lit "The end.") 3 2 2).
  rewrite len_doubled. vm_compute. discriminate.
Defined.

(** ** The handler as a whole *)

(** X12: every response the handler returns has [success] true, a
    [total_questions] that is the sum of the lengths of its three
    collections, and the message "Successfully generated N questions from
    NAME" for that total and the name of the upload. *)
Theorem response_invariant
  (env : Collaborators) (file : UploadFile) (a b c : Z)
  (response : QuizResponse) :
  snd (generate_quiz env file a b c) = inr response ->
  success response = true
  /\ total_questions response
     = len (mcq_questions response) + len (short_answer_questions response)
       + len (fill_in_the_blanks response)
  /\ 0 <= total_questions response
  /\ message response
     = lit "Successfully generated "
       ++ str_of_int (total_questions response)
       ++ lit " questions from " ++ filename file.
Proof.
  rewrite generate_quiz_run.
  destruct (negb _); [discriminate|].
  destruct (_ >? _); [discriminate|].
  destruct (snd (extract_text_from_pdf env (content file))) as [h|text];
    [discriminate|].
  destruct (len text <? 100); [discriminate|]. cbn [snd].
  destruct (snd (generate_questions_with_azure env text a b c))
    as [h|questions_data]; [discriminate|].
  destruct (build_response env (filename file) questions_data)
    as [e|r] eqn:E; [discriminate|].
  intros [= <-].
  destruct (build_response_invariant env _ _ _ E) as (H1 & H2 & H3).
  repeat split; try assumption.
  rewrite H2.
  pose proof (len_nonneg (mcq_questions r)).
  pose proof (len_nonneg (short_answer_questions r)).
  pose proof (len_nonneg (fill_in_the_blanks r)). lia.
Qed.

Lemma response_invariant_witness :
  exists response,
    snd (generate_quiz
           (Stub.env (Some (wrap Samples.json_block Samples.quiz_text)))
           Samples.lecture 3 2 2) = inr response
    /\ success response = true
    /\ total_questions response
       = len (mcq_questions response) + len (short_answer_questions response)
         + len (fill_in_the_blanks response)
    /\ 0 <= total_questions response
    /\ message response
       = lit "Successfully generated "
         ++ str_of_int (total_questions response)
         ++ lit " questions from " ++ filename Samples.lecture.
Proof.
  eexists. split; [vm_compute; reflexivity|].
  apply (response_invariant
           (Stub.env (Some (wrap Samples.json_block Samples.quiz_text)))
           Samples.lecture 3 2 2).
  vm_compute. reflexivity.
Defined.

(** X13: a request goes through the stages in one order and stops at the
    first that fails.  Its trace is empty (extension refused), or the read
    alone (payload refused), or the read and the opening of the document (a
    400 from the extraction or the length check), or these, the two printed
    lines and one call of the model, which is the only case where it can
    succeed; the model is never called twice. *)
Theorem handler_stages
  (env : Collaborators) (file : UploadFile) (a b c : Z) :
  generate_quiz env file a b c
  = ([], inl (HTTPError 400 (lit "Only PDF files are allowed")))
  \/ generate_quiz env file a b c
     = ([ReadUpload], inl (HTTPError 400 (lit "File too large. Max 10MB")))
  \/ (exists h,
        generate_quiz env file a b c
        = ([ReadUpload; PdfOpened (content file)], inl h)
        /\ status_code h = 400)
  \/ (exists text,
        endswith (filename file) (lit ".pdf") = true
        /\ len (content file) <= 10 * 1024 * 1024
        /\ snd (extract_text_from_pdf env (content file)) = inr text
        /\ 100 <= len text
        /\ fst (generate_quiz env file a b c)
           = full_trace env file text a b c).
Proof.
  rewrite generate_quiz_run.
  destruct (endswith (filename file) (lit ".pdf")); cbn [negb]; [|now left].
  destruct (Z.gtb_spec (len (content file)) (10 * 1024 * 1024));
    [right; now left|].
  rewrite extract_text_from_pdf_run. cbn [snd].
  destruct (PdfReader_pages env (content file)) as [e|pages].
  { right; right; left. eexists. split; reflexivity. }
  destruct (read_pages pages []) as [e|text].
  { right; right; left. eexists. split; reflexivity. }
  destruct (Z.ltb_spec (len (strip text)) 100).
  { right; right; left. eexists. split; reflexivity. }
  right; right; right. exists (strip text). repeat split; auto; lia.
Qed.

(** X14: the counts asked for are not checked against the answer: with a
    model whose answer does not depend on the request, the outcome of the
    handler is the same for any two triples of counts. *)
Theorem counts_are_not_enforced
  (env : Collaborators) (file : UploadFile) (a b c a' b' c' : Z) :
  (forall request request',
     chat_completions_create env request
     = chat_completions_create env request') ->
  snd (generate_quiz env file a b c) = snd (generate_quiz env file a' b' c').
Proof.
  intros H. rewrite !generate_quiz_run.
  destruct (negb _); [reflexivity|].
  destruct (_ >? _); [reflexivity|].
  destruct (snd (extract_text_from_pdf env (content file))) as [h|text];
    [reflexivity|].
  destruct (len text <? 100); [reflexivity|]. cbn [snd].
  rewrite !generate_questions_with_azure_run. cbn [snd].
  now rewrite (H (completion_request env text a b c)
                 (completion_request env text a' b' c')).
Qed.

Lemma counts_are_not_enforced_witness :
  snd (generate_quiz
         (Stub.env (Some (wrap Samples.json_block Samples.mcq_only_text)))
         Samples.lecture 10 10 10)
  = snd (generate_quiz
           (Stub.env (Some (wrap Samples.json_block Samples.mcq_only_text)))
           Samples.lecture 1 1 1).
Proof.
  apply (counts_are_not_enforced
           (Stub.env (Some (wrap Samples.json_block Samples.mcq_only_text)))
           Samples.lecture 10 10 10 1 1 1).
  reflexivity.
Defined.

(** X15: an answer that decodes to something other than an object (a list,
    a string, a number, [null]) makes the handler answer 500 with the
    detail "Error: " and the text of the attribute error of [.get]. *)
Theorem non_object_answer_is_a_500
  (env : Collaborators) (file : UploadFile) (a b c : Z) (text : str)
  (questions_data : json) :
  endswith (filename file) (lit ".pdf") = true ->
  len (content file) <= 10 * 1024 * 1024 ->
  snd (extract_text_from_pdf env (content file)) = inr text ->
  100 <= len text ->
  snd (generate_questions_with_azure env text a b c) = inr questions_data ->
  is_object questions_data = false ->
  snd (generate_quiz env file a b c)
  = inl (HTTPError 500
           (lit "Error: "
            ++ fault_text env (NoAttribute questions_data (lit "get")))).
Proof.
  intros Hext Hsize Htext Hlen Hdata Hobj.
  rewrite (generate_quiz_past_checks env file a b c text) by assumption.
  cbn [snd]. rewrite Hdata.
  destruct questions_data; try discriminate; reflexivity.
Qed.

Lemma non_object_answer_is_a_500_witness :
  snd (generate_quiz
         (Fake.service Stub.pages_of_bytes (inr (Some Fake.list_answer)))
         Samples.lecture 3 2 2)
  = inl (HTTPError 500
           (lit "Error: "
            ++ fault_text
                 (Fake.service Stub.pages_of_bytes
                    (inr (Some Fake.list_answer)))
                 (NoAttribute (JList []) (lit "get")))).
Proof.
  apply (non_object_answer_is_a_500
           (Fake.service Stub.pages_of_bytes (inr (Some Fake.list_answer)))
           Samples.lecture 3 2 2 (lit Samples.page) (JList [])).
  - reflexivity.
  - vm_compute. discriminate.
  - vm_compute. reflexivity.
  - vm_compute. discriminate.
  - vm_compute. reflexivity.
  - reflexivity.
Defined.

(** X16: a list that is present but [null], or a number or a boolean, is
    not read as a missing one: the loop over it raises a [TypeError] and the
    handler answers 500 with "Error: " and its text. *)
Theorem null_list_is_a_500
  (env : Collaborators) (file : UploadFile) (a b c : Z) (text : str)
  (d : list (str * json)) (v : json) :
  endswith (filename file) (lit ".pdf") = true ->
  len (content file) <= 10 * 1024 * 1024 ->
  snd (extract_text_from_pdf env (content file)) = inr text ->
  100 <= len text ->
  snd (generate_questions_with_azure env text a b c) = inr (JObject d) ->
  dict_lookup d (lit "mcq") = Some v ->
  is_scalar v = true ->
  snd (generate_quiz env file a b c)
  = inl (HTTPError 500 (lit "Error: " ++ fault_text env (NotIterable v))).
Proof.
  intros Hext Hsize Htext Hlen Hdata Hv Hs.
  rewrite (generate_quiz_past_checks env file a b c text) by assumption.
  cbn [snd]. rewrite Hdata.
  unfold build_response, comprehension, get_or_empty. rewrite Hv.
  destruct v; try discriminate; reflexivity.
Qed.

Lemma null_list_is_a_500_witness :
  snd (generate_quiz
         (Fake.service Stub.pages_of_bytes (inr (Some Fake.null_list_answer)))
         Samples.lecture 3 2 2)
  = inl (HTTPError 500
           (lit "Error: "
            ++ fault_text
                 (Fake.service Stub.pages_of_bytes
                    (inr (Some Fake.null_list_answer)))
                 (NotIterable JNull))).
Proof.
  apply (null_list_is_a_500
           (Fake.service Stub.pages_of_bytes
              (inr (Some Fake.null_list_answer)))
           Samples.lecture 3 2 2 (lit Samples.page)
           [(lit "mcq", JNull)] JNull).
  - reflexivity.
  - vm_compute. discriminate.
  - vm_compute. reflexivity.
  - vm_compute. discriminate.
  - vm_compute. reflexivity.
  - reflexivity.
  - reflexivity.
Defined.

(** X17: an item of the [mcq] list that is not an object, after records
    that validate, stops the loop with the [TypeError] of the keyword
    unpacking, and the handler answers 500 with "Error: " and its text. *)
Theorem non_object_record_is_a_500
  (env : Collaborators) (file : UploadFile) (a b c : Z) (text : str)
  (d : list (str * json)) (rs : list (list (str * json))) (q : json)
  (rest : list json) :
  endswith (filename file) (lit ".pdf") = true ->
  len (content file) <= 10 * 1024 * 1024 ->
  snd (extract_text_from_pdf env (content file)) = inr text ->
  100 <= len text ->
  snd (generate_questions_with_azure env text a b c) = inr (JObject d) ->
  dict_lookup d (lit "mcq") = Some (JList (map JObject rs ++ q :: rest)) ->
  first_rejected (validate_MCQQuestion env) rs = None ->
  is_object q = false ->
  snd (generate_quiz env file a b c)
  = inl (HTTPError 500
           (lit "Error: "
            ++ fault_text env (NotAMapping (lit "MCQQuestion") q))).
Proof.
  intros Hext Hsize Htext Hlen Hdata Hv Hrs Hq.
  rewrite (generate_quiz_past_checks env file a b c text) by assumption.
  cbn [snd]. rewrite Hdata.
  unfold build_response, comprehension, get_or_empty. rewrite Hv.
  cbn [iterate].
  pose proof (for_each_construct env "MCQQuestion"
                (validate_MCQQuestion env) rs) as Hok.
  rewrite Hrs in Hok. destruct Hok as [ms Hms].
  rewrite (for_each_app_fail _ _ q rest ms
             (fault_exc env (NotAMapping (lit "MCQQuestion") q)) Hms).
  - reflexivity.
  - destruct q; try discriminate; reflexivity.
Qed.

Lemma non_object_record_is_a_500_witness :
  snd (generate_quiz
         (Fake.service Stub.pages_of_bytes (inr (Some Fake.stray_item_answer)))
         Samples.lecture 3 2 2)
  = inl (HTTPError 500
           (lit "Error: "
            ++ fault_text
                 (Fake.service Stub.pages_of_bytes
                    (inr (Some Fake.stray_item_answer)))
                 (NotAMapping (lit "MCQQuestion") (JStr (lit "oops"))))).
Proof.
  apply (non_object_record_is_a_500
           (Fake.service Stub.pages_of_bytes
              (inr (Some Fake.stray_item_answer)))
           Samples.lecture 3 2 2 (lit Samples.page)
           (Samples.members (Samples.decoded Fake.stray_item_answer))
           [Samples.members
              (Samples.decoded (Samples.mcq_text "Is a cell alive?" "A"))]
           (JStr (lit "oops")) []).
  - reflexivity.
  - vm_compute. discriminate.
  - vm_compute. reflexivity.
  - vm_compute. discriminate.
  - vm_compute. reflexivity.
  - vm_compute. reflexivity.
  - vm_compute. reflexivity.
  - reflexivity.
Defined.

(** X18: a member of a record whose key is not the name of a field does
    not change what the three models make of the record. *)
Theorem unknown_members_are_ignored
  (env : Collaborators) (r : list (str * json)) (key : str) (v : json) :
  none_of key model_field_names = true ->
  validate_MCQQuestion env (dict_set r key v) = validate_MCQQuestion env r
  /\ validate_ShortAnswerQuestion env (dict_set r key v)
     = validate_ShortAnswerQuestion env r
  /\ validate_FillInTheBlank env (dict_set r key v)
     = validate_FillInTheBlank env r.
Proof.
  unfold none_of, model_field_names. cbn [forallb]. intros H.
  repeat (apply andb_true_iff in H as [?H H]).
  repeat match goal with
         | Hk : negb _ = true |- _ => apply negb_true_iff in Hk
         end.
  unfold validate_MCQQuestion, validate_ShortAnswerQuestion,
    validate_FillInTheBlank, required_str, required_str_list, optional_str.
  rewrite !dict_lookup_set_other by assumption.
  repeat split.
Qed.

Lemma unknown_members_are_ignored_witness :
  validate_MCQQuestion (Stub.env None) Fake.mcq_with_difficulty
  = validate_MCQQuestion (Stub.env None)
      (Samples.members
         (Samples.decoded (Samples.mcq_text "Is a cell alive?" "A")))
  /\ validate_ShortAnswerQuestion (Stub.env None) Fake.mcq_with_difficulty
     = validate_ShortAnswerQuestion (Stub.env None)
         (Samples.members
            (Samples.decoded (Samples.mcq_text "Is a cell alive?" "A")))
  /\ validate_FillInTheBlank (Stub.env None) Fake.mcq_with_difficulty
     = validate_FillInTheBlank (Stub.env None)
         (Samples.members
            (Samples.decoded (Samples.mcq_text "Is a cell alive?" "A"))).
Proof.
  apply (unknown_members_are_ignored (Stub.env None)
           (Samples.members
              (Samples.decoded (Samples.mcq_text "Is a cell alive?" "A")))
           (lit "difficulty") (JStr (lit "easy"))).
  reflexivity.
Defined.

(** X19: a failure of the extraction reaches the client as it was raised,
    with its 400 and its detail, and nothing is done after it. *)
Theorem extraction_failure_passes_through
  (env : Collaborators) (file : UploadFile) (a b c : Z) (h : HTTPException) :
  endswith (filename file) (lit ".pdf") = true ->
  len (content file) <= 10 * 1024 * 1024 ->
  snd (extract_text_from_pdf env (content file)) = inl h ->
  generate_quiz env file a b c
  = ([ReadUpload; PdfOpened (content file)], inl h).
Proof.
  intros Hext Hsize Hfail.
  rewrite generate_quiz_run, Hext, Hfail. cbn [negb].
  destruct (Z.gtb_spec (len (content file)) (10 * 1024 * 1024)); [lia|].
  reflexivity.
Qed.

Lemma extraction_failure_passes_through_witness :
  generate_quiz (Fake.service Fake.broken_reader (inr None))
    Samples.lecture 3 2 2
  = ([ReadUpload; PdfOpened (content Samples.lecture)],
     inl (HTTPError 400
            (lit "Error reading PDF: " ++ exc_text Fake.not_a_pdf))).
Proof.
  apply (extraction_failure_passes_through
           (Fake.service Fake.broken_reader (inr None))
           Samples.lecture 3 2 2
           (HTTPError 400
              (lit "Error reading PDF: " ++ exc_text Fake.not_a_pdf))).
  - reflexivity.
  - vm_compute. discriminate.
  - reflexivity.
Defined.

(** X20: a failure of the call of the model reaches the client as it was
    raised: the 500 keeps its own detail and is not wrapped again in
    "Error: ". *)
Theorem completion_failure_passes_through
  (env : Collaborators) (file : UploadFile) (a b c : Z) (text : str)
  (h : HTTPException) :
  endswith (filename file) (lit ".pdf") = true ->
  len (content file) <= 10 * 1024 * 1024 ->
  snd (extract_text_from_pdf env (content file)) = inr text ->
  100 <= len text ->
  snd (generate_questions_with_azure env text a b c) = inl h ->
  generate_quiz env file a b c = (full_trace env file text a b c, inl h).
Proof.
  intros Hext Hsize Htext Hlen Hfail.
  rewrite (generate_quiz_past_checks env file a b c text) by assumption.
  now rewrite Hfail.
Qed.

Lemma completion_failure_passes_through_witness :
  generate_quiz (Fake.service Stub.pages_of_bytes (inl Fake.out_of_quota))
    Samples.lecture 3 2 2
  = (full_trace (Fake.service Stub.pages_of_bytes (inl Fake.out_of_quota))
       Samples.lecture (lit Samples.page) 3 2 2,
     inl (HTTPError 500
            (lit "Azure OpenAI error: " ++ exc_text Fake.out_of_quota))).
Proof.
  apply (completion_failure_passes_through
           (Fake.service Stub.pages_of_bytes (inl Fake.out_of_quota))
           Samples.lecture 3 2 2 (lit Samples.page)
           (HTTPError 500
              (lit "Azure OpenAI error: " ++ exc_text Fake.out_of_quota))).
  - reflexivity.
  - vm_compute. discriminate.
  - vm_compute. reflexivity.
  - vm_compute. discriminate.
  - reflexivity.
Defined.

(** X21: whatever its size above the cap, a payload is read, refused with
    the 400 "File too large. Max 10MB", and never handed to the reader. *)
Theorem oversized_payload_rejected
  (env : Collaborators) (file : UploadFile) (a b c : Z) :
  endswith (filename file) (lit ".pdf") = true ->
  10 * 1024 * 1024 < len (content file) ->
  generate_quiz env file a b c
  = ([ReadUpload], inl (HTTPError 400 (lit "File too large. Max 10MB"))).
Proof.
  intros Hext Hsize. rewrite generate_quiz_run, Hext. cbn [negb].
  destruct (Z.gtb_spec (len (content file)) (10 * 1024 * 1024)); [|lia].
  reflexivity.
Qed.

Lemma oversized_payload_rejected_witness :
  generate_quiz (Stub.env None) Fake.twice_the_cap 5 3 3
  = ([ReadUpload], inl (HTTPError 400 (lit "File too large. Max 10MB"))).
Proof.
  apply (oversized_payload_rejected (Stub.env None) Fake.twice_the_cap 5 3 3).
  - reflexivity.
  - cbn [content Fake.twice_the_cap]. rewrite len_doubled. reflexivity.
Defined.

(** X22: whatever the collaborators do, what the handler raises is an
    [HTTPException] of status 400 or 500: no other exception leaves it. *)
Lemma handler_failures_are_classified
  (env : Collaborators) (file : UploadFile) (a b c : Z) (h : HTTPException) :
  snd (generate_quiz env file a b c) = inl h ->
  status_code h = 400 \/ status_code h = 500.
Proof.
  rewrite generate_quiz_run.
  destruct (negb (endswith (filename file) (lit ".pdf")));
    [intros [= <-]; now left|].
  destruct (len (content file) >? 10 * 1024 * 1024);
    [intros [= <-]; now left|].
  rewrite extract_text_from_pdf_run. cbn [snd].
  destruct (PdfReader_pages env (content file)) as [e|pages];
    [intros [= <-]; now left|].
  destruct (read_pages pages []) as [e|text]; [intros [= <-]; now left|].
  destruct (len (strip text) <? 100); [intros [= <-]; now left|].
  rewrite generate_questions_with_azure_run. cbn [snd].
  unfold completion_error.
  destruct (chat_completions_create env _) as [e|[response_text|]].
  - destruct (is_json_decode_error _); intros [= <-]; now right.
  - destruct (decode_completion env response_text) as [e|questions_data].
    + destruct (is_json_decode_error _); intros [= <-]; now right.
    + destruct (build_response env _ questions_data);
        [intros [= <-]; now right | discriminate].
  - destruct (is_json_decode_error _); intros [= <-]; now right.
Qed.

Lemma handler_failures_are_classified_witness :
  status_code
    (HTTPError 400 (lit "Error reading PDF: " ++ exc_text Fake.not_a_pdf))
  = 400
  \/ status_code
       (HTTPError 400 (lit "Error reading PDF: " ++ exc_text Fake.not_a_pdf))
     = 500.
Proof.
  apply (handler_failures_are_classified
           (Fake.service Fake.broken_reader (inr None))
           Samples.lecture 3 2 2
           (HTTPError 400
              (lit "Error reading PDF: " ++ exc_text Fake.not_a_pdf))).
  reflexivity.
Defined.

(** X23: an answer that holds none of the three lists is still a
    success: the handler returns a response with three empty collections,
    a total of zero and the message "Successfully generated 0 questions
    from NAME". *)
Theorem empty_answer_succeeds
  (env : Collaborators) (file : UploadFile) (a b c : Z) (text : str)
  (d : list (str * json)) :
  endswith (filename file) (lit ".pdf") = true ->
  len (content file) <= 10 * 1024 * 1024 ->
  snd (extract_text_from_pdf env (content file)) = inr text ->
  100 <= len text ->
  snd (generate_questions_with_azure env text a b c) = inr (JObject d) ->
  dict_lookup d (lit "mcq") = None ->
  dict_lookup d (lit "short_answer") = None ->
  dict_lookup d (lit "fill_in_the_blanks") = None ->
  snd (generate_quiz env file a b c)
  = inr {| success := true;
           message := lit "Successfully generated " ++ str_of_int 0
                      ++ lit " questions from " ++ filename file;
           mcq_questions := [];
           short_answer_questions := [];
           fill_in_the_blanks := [];
           total_questions := 0 |}.
Proof.
  intros Hext Hsize Htext Hlen Hdata Hm Hs Hb.
  rewrite (generate_quiz_past_checks env file a b c text) by assumption.
  cbn [snd]. rewrite Hdata.
  unfold build_response, comprehension, get_or_empty.
  rewrite Hm, Hs, Hb. reflexivity.
Qed.

Lemma empty_answer_succeeds_witness :
  snd (generate_quiz (Stub.env (Some (lit "{}"))) Samples.lecture 3 2 2)
  = inr {| success := true;
           message := lit "Successfully generated " ++ str_of_int 0
                      ++ lit " questions from " ++ filename Samples.lecture;
           mcq_questions := [];
           short_answer_questions := [];
           fill_in_the_blanks := [];
           total_questions := 0 |}.
Proof.
  apply (empty_answer_succeeds (Stub.env (Some (lit "{}"))) Samples.lecture
           3 2 2 (lit Samples.page) []).
  - reflexivity.
  - vm_compute. discriminate.
  - vm_compute. reflexivity.
  - vm_compute. discriminate.
  - vm_compute. reflexivity.
  - reflexivity.
  - reflexivity.
  - reflexivity.
Defined.

(** ** The health endpoint *)

(** X24: the health endpoint answers "healthy" whether or not the service
    is configured; it reports the key as configured exactly when the
    variable is set and not empty, and the deployment it names is the model
    every request to the service carries. *)
Theorem health_reports_configuration
  (env : Collaborators) (key : option str) (text : str) (a b c : Z) :
  json_get (health_check env key) "status" = Some (JStr (lit "healthy"))
  /\ (json_get (health_check env key) "azure_configured" = Some (JBool true)
      <-> exists ch rest, key = Some (ch :: rest))
  /\ json_get (health_check env key) "deployment"
     = Some (json_of_getenv (model (completion_request env text a b c))).
Proof.
  split; [reflexivity|]. split; [|reflexivity].
  unfold health_check. cbn. destruct key as [[|ch rest]|]; cbn; split.
  - discriminate.
  - intros (? & ? & [=]).
  - intros _. now exists ch, rest.
  - reflexivity.
  - discriminate.
  - intros (? & ? & [=]).
Qed.
